(** * gonerator: template-driven code generation from Go type declarations

    A shallow embedding of [gonerator/tmpl/methods.go] and
    [gonerator/gonerator/gonerator.go], with the properties of the
    specification stated and settled against it.

    Go strings are byte strings and are modelled by [string]; a nil pointer
    that the code dereferences is modelled by [option] and the resulting
    run-time panic by [None] (pure code) or [Panicked] (stateful code). *)

From Stdlib Require Import String Ascii List Bool ZArith Arith Lia.
Import ListNotations.
Open Scope string_scope.

Set Warnings "-register-all".

(** ** The fragment of Go's [strings] package the program calls *)

Module strings.

(** [strings.HasPrefix(s, prefix)]. *)
Fixpoint HasPrefix (s prefix : string) {struct prefix} : bool :=
  match prefix with
  | EmptyString => true
  | String p prefix' =>
      match s with
      | EmptyString => false
      | String c s' => Ascii.eqb c p && HasPrefix s' prefix'
      end
  end.

(** [strings.HasSuffix(s, suffix)]:
    [len(s) >= len(suffix) && s[len(s)-len(suffix):] == suffix]. *)
Definition HasSuffix (s suffix : string) : bool :=
  (String.length suffix <=? String.length s)%nat
  && String.eqb
       (substring (String.length s - String.length suffix)
                  (String.length suffix) s)
       suffix.

(** [strings.Contains(s, substr)]: [substr] occurs at some index of [s]. *)
Fixpoint Contains (s substr : string) : bool :=
  HasPrefix s substr
  || match s with
     | EmptyString => false
     | String _ s' => Contains s' substr
     end.

(** [strings.Split(s, sep)] for a one-byte separator [sep]: the substrings
    between the occurrences of [sep]; a string without [sep] (the empty
    string too) yields the one-element slice holding it. *)
Fixpoint SplitByte (sep : ascii) (s : string) : list string :=
  match s with
  | EmptyString => [EmptyString]
  | String c s' =>
      if Ascii.eqb c sep then EmptyString :: SplitByte sep s'
      else match SplitByte sep s' with
           | tok :: toks => String c tok :: toks
           | [] => [String c EmptyString]
           end
  end.

(** [strings.Join(elems, sep)]. *)
Fixpoint Join (elems : list string) (sep : string) : string :=
  match elems with
  | [] => EmptyString
  | [e] => e
  | e :: rest => e ++ sep ++ Join rest sep
  end.

Definition isUpperByte (c : ascii) : bool :=
  (65 <=? nat_of_ascii c)%nat && (nat_of_ascii c <=? 90)%nat.

(** ['A'..'Z'] are moved to ['a'..'z'], every other byte is kept. *)
Definition lowerByte (c : ascii) : ascii :=
  if isUpperByte c then ascii_of_nat (nat_of_ascii c + 32) else c.

Fixpoint mapBytes (f : ascii -> ascii) (s : string) : string :=
  match s with
  | EmptyString => EmptyString
  | String c s' => String (f c) (mapBytes f s')
  end.

(** Every byte is below [utf8.RuneSelf] (0x80). *)
Fixpoint isASCII (s : string) : bool :=
  match s with
  | EmptyString => true
  | String c s' => (nat_of_ascii c <? 128)%nat && isASCII s'
  end.

(** [strings.ToLower(s)]: byte-wise on ASCII strings; a string holding a
    byte at or above 0x80 goes through [unicode.ToLower] rune by rune, which
    is taken as the parameter [unicodeLower]. *)
Definition ToLower (unicodeLower : string -> string) (s : string) : string :=
  if isASCII s then mapBytes lowerByte s else unicodeLower s.

End strings.

(** ** The fragment of [go/ast] the program inspects *)

Module ast.

Inductive ChanDir := SEND | RECV | SENDRECV.

(** Type expressions. [Ident] carries [Name]; [SelectorExpr] carries the
    name of its [Sel] identifier; an [ArrayType] with [Len = None] is a
    slice. In a [FuncType] the parser always allocates [Params], and leaves
    [Results] nil when the signature declares no result. Positions are not
    kept. *)
Inductive Expr :=
| BadExpr
| Ident (Name : string)
| Ellipsis (Elt : option Expr)
| ParenExpr (X : Expr)
| SelectorExpr (X : Expr) (Sel : string)
| StarExpr (X : Expr)
| ArrayType (Len : option Expr) (Elt : Expr)
| StructType (Fields : list Field)
| FuncType (Params : list Field) (Results : option (list Field))
| InterfaceType (Methods : list Field)
| MapType (Key Value : Expr)
| ChanType (Dir : ChanDir) (Value : Expr)
| BasicLit (Value : string)
with Field :=
| mkField (Names : list string) (Type_ : Expr).

Definition Names (f : Field) : list string :=
  match f with mkField ns _ => ns end.

Definition Type_ (f : Field) : Expr :=
  match f with mkField _ t => t end.

Inductive Spec :=
| ImportSpec (Path : string)
| ValueSpec (Names : list string)
| TypeSpec (Name : string) (Type_ : Expr).

Inductive Decl :=
| BadDecl
| GenDecl (Specs : list Spec)
| FuncDecl (Name : string).

(** [ast.File]: the package clause's name and the top-level declarations. *)
Record File := mkFile { Name : string; Decls : list Decl }.

End ast.

(** ** Package [tmpl], file [methods.go] *)

Module tmpl.
Import ast.

(** [MethodField]: the names bound by one parameter or result slot, and the
    slot's type as text. *)
Record MethodField := mkMethodField { Names : list string; Type_ : string }.

Record Method := mkMethod {
  Name : string;
  Params : list MethodField;
  Results : list MethodField
}.

Section Stringifier.

(** What [fmt] prints between the braces for a node that has no [String]
    method: its fields, with positions and the addresses of nested nodes.
    The model keeps neither, so this text is a parameter. *)
Variable fmtFields : Expr -> string.

(** [fmt.Sprintf("%s", e)] for an [ast.Expr]: [*ast.Ident] implements
    [Stringer] and prints its name; a pointer to any other node prints as
    [&{...}]. *)
Definition Sprint (e : Expr) : string :=
  match e with
  | Ident n => n
  | _ => "&{" ++ fmtFields e ++ "}"
  end.

Fixpoint getTypeString (expr : Expr) : string :=
  match expr with
  | ArrayType _ elt => "[]" ++ getTypeString elt
  | MapType key value => "map[" ++ Sprint key ++ "]" ++ Sprint value
  | SelectorExpr x sel => Sprint x ++ "." ++ sel
  | StarExpr x => "*" ++ getTypeString x
  | _ => Sprint expr
  end.

(** The loop body of [extractFieldsFromAst]: the names are copied one by one
    into a fresh slice of the same length. *)
Definition extractField (item : Field) : MethodField :=
  {| Type_ := getTypeString (ast.Type_ item);
     Names := map (fun n => n) (ast.Names item) |}.

Fixpoint extractFieldsFromAst (items : list Field) : list MethodField :=
  match items with
  | [] => []
  | item :: rest => extractField item :: extractFieldsFromAst rest
  end.

(** [extractParamsAndResults]: [fnDesl.Params.List] and
    [fnDesl.Results.List]; the second dereferences [Results], which is nil
    for a signature without results. *)
Definition extractParamsAndResults (params : list Field)
    (results : option (list Field))
  : option (list MethodField * list MethodField) :=
  let ps := extractFieldsFromAst params in
  match results with
  | None => None
  | Some rs => Some (ps, extractFieldsFromAst rs)
  end.

(** The loop over [sType.Methods.List]: a member whose type is a [FuncType]
    is appended to [out], any other member (an embedded interface) is
    skipped. [field.Names[0]] is out of range for a nameless member. *)
Fixpoint methodsOfInterface (members : list Field) (out : list Method)
  : option (list Method) :=
  match members with
  | [] => Some out
  | field :: rest =>
      match ast.Type_ field with
      | FuncType params results =>
          match extractParamsAndResults params results with
          | None => None
          | Some (ps, rs) =>
              match ast.Names field with
              | [] => None
              | n :: _ =>
                  methodsOfInterface rest
                    (out ++ [{| Name := n; Params := ps; Results := rs |}])
              end
          end
      | _ => methodsOfInterface rest out
      end
  end.

(** The loop over [decl.Specs]. *)
Fixpoint methodsOfSpecs (specs : list Spec) (typeName : string)
    (out : list Method) : option (list Method) :=
  match specs with
  | [] => Some out
  | TypeSpec name (InterfaceType members) :: rest =>
      if String.eqb name typeName then
        match methodsOfInterface members out with
        | None => None
        | Some out' => methodsOfSpecs rest typeName out'
        end
      else methodsOfSpecs rest typeName out
  | _ :: rest => methodsOfSpecs rest typeName out
  end.

(** The loop over [file.Decls]. *)
Fixpoint methodsOfDecls (decls : list Decl) (typeName : string)
    (out : list Method) : option (list Method) :=
  match decls with
  | [] => Some out
  | GenDecl specs :: rest =>
      match methodsOfSpecs specs typeName out with
      | None => None
      | Some out' => methodsOfDecls rest typeName out'
      end
  | _ :: rest => methodsOfDecls rest typeName out
  end.

(** [GetMethods(file, typeName)]; [None] is a run-time panic. *)
Definition GetMethods (file : File) (typeName : string)
  : option (list Method) :=
  methodsOfDecls (Decls file) typeName [].

End Stringifier.

End tmpl.

(** ** The fragment of [fmt] behind [Gonerator.printf] and [log.Printf] *)

Module fmt.

(** Operands that no verb consumed. *)
Definition extra (a : list string) : string :=
  match a with
  | [] => ""
  | _ => "%!(EXTRA " ++ strings.Join (map (fun x => "string=" ++ x) a) ", " ++ ")"
  end.

Definition isStringVerb (verb : ascii) : bool :=
  Ascii.eqb verb "s" || Ascii.eqb verb "v".

(** [fmt.Sprintf(format, a...)] over string operands, for the formats in
    which every percent sign is followed directly by its verb: [%s] and
    [%v] print the next operand, [%%] prints a percent sign, a letter
    without an operand left prints [%!verb(MISSING)], a percent sign that
    ends the format prints [%!(NOVERB)]. These are the formats of the string
    literals of the program, and of rendered text whose percent signs are
    each followed by a letter or a second percent sign. Flags, widths,
    precisions, argument indexes, verbs of several bytes and the other
    verbs of string operands are not modelled: on a format that has one the
    function below is not [fmt]'s, and nothing is stated of it there. *)
Fixpoint Sprintf (format : string) (a : list string) : string :=
  match format with
  | EmptyString => extra a
  | String c rest =>
      if Ascii.eqb c "%" then
        match rest with
        | EmptyString => "%!(NOVERB)" ++ extra a
        | String verb rest' =>
            if Ascii.eqb verb "%" then String "%" (Sprintf rest' a)
            else
              match a with
              | [] => "%!" ++ String verb "(MISSING)" ++ Sprintf rest' []
              | arg :: a' =>
                  (if isStringVerb verb then arg
                   else "%!" ++ String verb ("(string=" ++ arg ++ ")"))
                  ++ Sprintf rest' a'
              end
        end
      else String c (Sprintf rest a)
  end.

End fmt.

(** ** The fragment of [path/filepath] the program calls (Unix) *)

Module filepath.

Definition isDot (e : string) : bool := String.eqb e "" || String.eqb e ".".

(** One path element against the elements kept so far (innermost first):
    empty and [.] elements vanish, [..] removes the element before it, is
    dropped at the root, and is kept at the start of a relative path. *)
Definition cleanStep (rooted : bool) (out : list string) (e : string)
  : list string :=
  if isDot e then out
  else if String.eqb e ".." then
    match out with
    | top :: out' => if String.eqb top ".." then e :: out else out'
    | [] => if rooted then [] else [e]
    end
  else e :: out.

(** The elements of the cleaned path, outermost first. *)
Definition cleanElems (path : string) : list string :=
  rev (fold_left (cleanStep (strings.HasPrefix path "/"))
                 (strings.SplitByte "/" path) []).

Definition render (rooted : bool) (elems : list string) : string :=
  let s := (if rooted then "/" else "") ++ strings.Join elems "/" in
  if String.eqb s "" then "." else s.

(** [filepath.Clean(path)]. *)
Definition Clean (path : string) : string :=
  if String.eqb path "" then "."
  else render (strings.HasPrefix path "/") (cleanElems path).

(** [filepath.Join(a, b)]: leading empty elements are ignored, the rest is
    joined with the separator and cleaned. *)
Definition Join (a b : string) : string :=
  if negb (String.eqb a "") then Clean (a ++ "/" ++ b)
  else if negb (String.eqb b "") then Clean b
  else "".

(** [path[:i+1]] for the index [i] of the last separator. *)
Fixpoint uptoLastSlash (path : string) : string :=
  match path with
  | EmptyString => EmptyString
  | String c rest =>
      let t := uptoLastSlash rest in
      if Ascii.eqb c "/" then String c t
      else if String.eqb t "" then EmptyString
      else String c t
  end.

(** [filepath.Dir(path)]. *)
Definition Dir (path : string) : string := Clean (uptoLastSlash path).

End filepath.

(** ** Package [gonerator], file [gonerator.go] *)

Module gonerator.

(** Modelled from the spec: [tmpl.Field], declared in a file of package
    [tmpl] that is not part of the sources at hand; a struct member with its
    name, its type as text and its tag. *)
Record StructField := mkStructField {
  FieldName : string;
  FieldType : string;
  FieldTag : string
}.

(** Modelled from the spec: [tmpl.TemplateData], declared in a file of
    package [tmpl] that is not part of the sources at hand; the fields are
    those [Build] and [buildTemplateData] assign. *)
Record TemplateData := mkTemplateData {
  TypeName : string;
  TemplateFile : string;
  OutputFile : string;
  PackageName : string;
  Fields : list StructField;
  Methods : list tmpl.Method;
  Extras : list string
}.

(** [Package]; a [File] of [files] wraps a parsed file and points back to
    its package, so [files] is kept as the parsed files. *)
Record Package := mkPackage {
  name : string;
  files : list ast.File;
  dir : string;
  astFiles : list ast.File
}.

Record Gonerator := mkGonerator {
  buf : string;
  pkg : option Package;
  data : TemplateData
}.

(** What a run does to the outside: lines handed to [log], directories
    created, files written, in the order of the calls. *)
Inductive Event :=
| Logged (line : string)
| MadeDir (path : string)
| Wrote (path : string) (content : string).

Record State := mkState { gon : Gonerator; trace : list Event }.

(** How a method call ends: it returns, the process exits with a status
    ([os.Exit], [log.Fatalf]), or it panics. *)
Inductive Res (A : Type) :=
| Ok (a : A) (s : State)
| Exited (code : Z) (s : State)
| Panicked (s : State).
Arguments Ok {A} a s.
Arguments Exited {A} code s.
Arguments Panicked {A} s.

Definition M (A : Type) : Type := State -> Res A.

Definition ret {A} (a : A) : M A := fun s => Ok a s.

Definition bind {A B} (m : M A) (k : A -> M B) : M B :=
  fun s =>
    match m s with
    | Ok a s' => k a s'
    | Exited c s' => Exited c s'
    | Panicked s' => Panicked s'
    end.

Notation "x <- m ;; k" := (bind m (fun x => k))
  (at level 61, m at next level, right associativity).
Notation "m ;;; k" := (bind m (fun _ => k))
  (at level 61, right associativity).

Definition getG : M Gonerator := fun s => Ok (gon s) s.

Definition modifyG (f : Gonerator -> Gonerator) : M unit :=
  fun s => Ok tt {| gon := f (gon s); trace := trace s |}.

Definition emit (e : Event) : M unit :=
  fun s => Ok tt {| gon := gon s; trace := trace s ++ [e] |}.

Definition panic {A} : M A := fun s => Panicked s.

Definition os_Exit {A} (code : Z) : M A := fun s => Exited code s.

Definition log_Printf (format : string) (a : list string) : M unit :=
  emit (Logged (fmt.Sprintf format a)).

(** [log.Fatalf] is [log.Printf] followed by [os.Exit(1)]. *)
Definition log_Fatalf {A} (format : string) (a : list string) : M A :=
  log_Printf format a ;;; os_Exit 1%Z.

Definition setBuf (b : string) (g : Gonerator) : Gonerator :=
  {| buf := b; pkg := pkg g; data := data g |}.

Definition setPkg (p : option Package) (g : Gonerator) : Gonerator :=
  {| buf := buf g; pkg := p; data := data g |}.

Definition setData (d : TemplateData) (g : Gonerator) : Gonerator :=
  {| buf := buf g; pkg := pkg g; data := d |}.

(** The line feed and the double quote of the Go string literals. *)
Definition LF : string := String (ascii_of_nat 10) EmptyString.
Definition DQ : string := String (ascii_of_nat 34) EmptyString.

(** The calls that leave the repository: the Go standard library and the
    parts of package [tmpl] that are not among the sources at hand. An
    error value is its message. *)
Record Externals := mkExternals {
  (** [fmt]'s dump of the fields of a syntax node *)
  fmtFields : ast.Expr -> string;
  (** [unicode.ToLower] over a string that is not ASCII *)
  unicodeLower : string -> string;
  (** [tmpl.GetFields(file, typeName)] *)
  GetFields : ast.File -> string -> list StructField;
  (** [tmpl.Generate(buffer, data, templateContent)]: the rendered text, or
      no text when the template fails *)
  Generate : TemplateData -> string -> option string;
  (** [ioutil.ReadFile(path)] *)
  ReadFile : string -> string + string;
  (** [build.Default.ImportDir(directory, 0)], its [GoFiles] *)
  ImportDir : string -> string + list string;
  (** [parser.ParseFile(fs, name, nil, 0)] *)
  ParseFile : string -> string + ast.File;
  (** [format.Source(src)] *)
  Source : string -> string + string;
  (** [os.MkdirAll(path, 0755)], the error if any *)
  MkdirAll : string -> option string;
  (** [ioutil.WriteFile(name, data, 0644)], the error if any *)
  WriteFile : string -> string -> option string
}.

Section Run.

Variable E : Externals.

Definition isGo (filename : string) : bool :=
  strings.Contains filename ".go".

Definition printf (format : string) (a : list string) : M unit :=
  modifyG (fun g => setBuf (buf g ++ fmt.Sprintf format a) g).

Definition buildHeader : M unit :=
  g <- getG ;;
  if isGo (OutputFile (data g)) then
    printf ("// Code gonerated by " ++ DQ
            ++ "github.com/myteksi/go/tools/gonerator" ++ DQ ++ LF
            ++ "// DO NOT EDIT" ++ LF) [] ;;;
    printf ("// @" ++ "generated " ++ LF) [] ;;;
    printf ("//" ++ LF) [] ;;;
    printf ("// Args:" ++ LF) [] ;;;
    printf ("// TypeName: %s" ++ LF) [TypeName (data g)] ;;;
    printf ("// Template: %s" ++ LF) [TemplateFile (data g)] ;;;
    printf ("// Destination: %s" ++ LF) [OutputFile (data g)] ;;;
    printf LF []
  else ret tt.

(** The body of the loop of [findTypeFields], for the files still to visit. *)
Fixpoint findTypeFieldsFrom (fs : list ast.File) : M unit :=
  match fs with
  | [] => ret tt
  | file :: rest =>
      g <- getG ;;
      let fields := GetFields E file (TypeName (data g)) in
      (if (0 <? List.length fields)%nat then
         modifyG (fun g =>
           let d := data g in
           setData {| TypeName := TypeName d; TemplateFile := TemplateFile d;
                      OutputFile := OutputFile d; PackageName := PackageName d;
                      Fields := Fields d ++ fields; Methods := Methods d;
                      Extras := Extras d |} g)
       else ret tt) ;;;
      match tmpl.GetMethods (fmtFields E) file (TypeName (data g)) with
      | None => panic
      | Some methods =>
          (if (0 <? List.length methods)%nat then
             modifyG (fun g =>
               let d := data g in
               setData {| TypeName := TypeName d;
                          TemplateFile := TemplateFile d;
                          OutputFile := OutputFile d;
                          PackageName := PackageName d;
                          Fields := Fields d; Methods := Methods d ++ methods;
                          Extras := Extras d |} g)
           else ret tt) ;;;
          findTypeFieldsFrom rest
      end
  end.

(** [g.pkg] is a pointer: nil until [parsePackage] has run. *)
Definition findTypeFields : M unit :=
  g <- getG ;;
  match pkg g with
  | None => panic
  | Some p => findTypeFieldsFrom (astFiles p)
  end.

Definition buildTemplateData (extras : string) : M unit :=
  findTypeFields ;;;
  modifyG (fun g =>
    let d := data g in
    setData {| TypeName := TypeName d; TemplateFile := TemplateFile d;
               OutputFile := OutputFile d; PackageName := PackageName d;
               Fields := Fields d; Methods := Methods d;
               Extras := strings.SplitByte "," extras |} g) ;;;
  g <- getG ;;
  match pkg g with
  | None => panic
  | Some p =>
      modifyG (fun g =>
        let d := data g in
        setData {| TypeName := TypeName d; TemplateFile := TemplateFile d;
                   OutputFile := OutputFile d; PackageName := name p;
                   Fields := Fields d; Methods := Methods d;
                   Extras := Extras d |} g)
  end.

(** The rendered text goes through [printf] as its format string. *)
Definition generate (templateContent : string) : M unit :=
  g <- getG ;;
  match Generate E (data g) templateContent with
  | None => panic
  | Some text => printf text []
  end.

Definition prefixDirectory (directory : string) (names : list string)
  : list string :=
  if String.eqb directory "." then names
  else map (fun name => filepath.Join directory name) names.

(** The loop of [parsePackage] over [names], with the files parsed so far. *)
Fixpoint parseNames (names : list string) (parsed : list ast.File)
  : M (list ast.File) :=
  match names with
  | [] => ret parsed
  | name :: rest =>
      if negb (strings.HasSuffix name ".go") then parseNames rest parsed
      else
        match ParseFile E name with
        | inl err =>
            g <- getG ;;
            log_Fatalf "[%s] parsing package: %s: %s"
                       [OutputFile (data g); name; err]
        | inr parsedFile => parseNames rest (parsed ++ [parsedFile])
        end
  end.

Definition parsePackage (directory : string) (names : list string) : M unit :=
  modifyG (setPkg (Some {| name := ""; files := []; dir := "";
                           astFiles := [] |})) ;;;
  parsed <- parseNames names [] ;;
  match parsed with
  | [] =>
      g <- getG ;;
      log_Fatalf "[%s] %s: no buildable Go files"
                 [OutputFile (data g); directory]
  | first :: _ =>
      modifyG (setPkg (Some {| name := ast.Name first; files := parsed;
                               dir := directory; astFiles := parsed |}))
  end.

Definition ParsePackageDir (directory : string) : M unit :=
  match ImportDir E directory with
  | inl err =>
      g <- getG ;;
      log_Fatalf "[%s] cannot process directory %s: %s"
                 [OutputFile (data g); directory; err]
  | inr goFiles => parsePackage directory (prefixDirectory directory goFiles)
  end.

(** [format]: the bytes to write and the formatter's error, if any. *)
Definition format : M (string * option string) :=
  g <- getG ;;
  match Source E (buf g) with
  | inl err =>
      log_Printf "[%s] warning: internal error: invalid Go gonerated: %s"
                 [OutputFile (data g); err] ;;;
      log_Printf "[%s] warning: compile the package to analyze the error"
                 [OutputFile (data g)] ;;;
      ret (buf g, Some err)
  | inr src => ret (src, None)
  end.

Definition toBytes : M string := g <- getG ;; ret (buf g).

(** [outputName] of [writeFile]. *)
Definition outputName (dir filename : string) : string :=
  filepath.Join dir (strings.ToLower (unicodeLower E) filename).

Definition writeFile (dir filename typeName : string) : M (option string) :=
  r <- (if isGo filename then format
        else src <- toBytes ;; ret (src, None)) ;;
  let '(src, errOut) := r in
  let directory := filepath.Dir (outputName dir filename) in
  g <- getG ;;
  match MkdirAll E directory with
  | Some err =>
      log_Fatalf "[%s] error creating destination directory: %s"
                 [OutputFile (data g); err]
  | None => emit (MadeDir directory)
  end ;;;
  match WriteFile E (outputName dir filename) src with
  | Some err =>
      log_Fatalf "[%s] error writing output: %s" [OutputFile (data g); err]
  | None => emit (Wrote (outputName dir filename) src)
  end ;;;
  ret errOut.

(** [path] of [Build]: where the template is read from. *)
Definition templatePath (dir templateFile : string) : string :=
  if negb (strings.HasPrefix templateFile "/") then dir ++ templateFile
  else templateFile.

Definition Build (dir typeName templateFile outputFile extras : string)
  : M unit :=
  modifyG (setData {| TypeName := typeName; TemplateFile := templateFile;
                      OutputFile := outputFile; PackageName := "";
                      Fields := []; Methods := []; Extras := [] |}) ;;;
  buildHeader ;;;
  match ReadFile E (templatePath dir templateFile) with
  | inl _ => panic
  | inr templateContent =>
      buildTemplateData extras ;;;
      generate templateContent ;;;
      err <- writeFile dir outputFile typeName ;;
      match err with
      | Some _ => os_Exit (-1)%Z
      | None => ret tt
      end
  end.

End Run.

End gonerator.

(** ** Vocabulary of the specification and sample inputs *)

Module Spec.
Import ast.

(** The type constructors of the nesting property: pointer to, slice of,
    array (with a length) of. *)
Inductive Wrapper := Pointer | Slice | Array (len : Expr).

Fixpoint wrap (ws : list Wrapper) (T : Expr) : Expr :=
  match ws with
  | [] => T
  | Pointer :: ws' => StarExpr (wrap ws' T)
  | Slice :: ws' => ArrayType None (wrap ws' T)
  | Array len :: ws' => ArrayType (Some len) (wrap ws' T)
  end.

Fixpoint wrapText (ws : list Wrapper) : string :=
  match ws with
  | [] => ""
  | Pointer :: ws' => "*" ++ wrapText ws'
  | Slice :: ws' => "[]" ++ wrapText ws'
  | Array _ :: ws' => "[]" ++ wrapText ws'
  end.

(** The shapes the stringifier treats specially: array, map, pointer,
    qualified name. *)
Definition handled (e : Expr) : bool :=
  match e with
  | ArrayType _ _ | MapType _ _ | StarExpr _ | SelectorExpr _ _ => true
  | _ => false
  end.

Definition isIdent (e : Expr) : bool :=
  match e with Ident _ => true | _ => false end.

(** A member of an interface that is a method with a result list: one name,
    a signature, [Results] allocated. *)
Definition isMethodWithResults (f : Field) : bool :=
  match f with
  | mkField (_ :: _) (FuncType _ (Some _)) => true
  | _ => false
  end.

(** A member of an interface that is a method: its type is a signature.
    The other members are embedded interfaces. *)
Definition isFuncMember (f : Field) : bool :=
  match ast.Type_ f with FuncType _ _ => true | _ => false end.

(** The members of the interfaces declared under the requested name, in
    the order of the file. *)
Definition membersOfSpec (typeName : string) (sp : Spec) : list Field :=
  match sp with
  | TypeSpec name (InterfaceType members) =>
      if String.eqb name typeName then members else []
  | _ => []
  end.

Definition membersOfDecl (typeName : string) (d : Decl) : list Field :=
  match d with
  | GenDecl specs => flat_map (membersOfSpec typeName) specs
  | _ => []
  end.

Definition declaredMethods (file : File) (typeName : string) : list Field :=
  filter isFuncMember (flat_map (membersOfDecl typeName) (Decls file)).

(** The [Method] the declaration of such a member describes. *)
Definition methodOf (F : Expr -> string) (f : Field) : tmpl.Method :=
  match f with
  | mkField names (FuncType params results) =>
      {| tmpl.Name := hd "" names;
         tmpl.Params := map (tmpl.extractField F) params;
         tmpl.Results :=
           map (tmpl.extractField F)
               (match results with Some rs => rs | None => [] end) |}
  | mkField names _ =>
      {| tmpl.Name := hd "" names; tmpl.Params := []; tmpl.Results := [] |}
  end.

(** The byte [c] occurs in [s]. *)
Fixpoint hasByte (c : ascii) (s : string) : bool :=
  match s with
  | EmptyString => false
  | String x s' => Ascii.eqb x c || hasByte c s'
  end.

(** A stand-in for [fmt]'s dump of a node's fields, for running the model. *)
Definition noFields (e : Expr) : string := "".

(** [type Closer interface { Close() }] in a file of package [sample]. *)
Definition closerFile : File :=
  {| Name := "sample";
     Decls := [GenDecl [TypeSpec "Closer"
                 (InterfaceType [mkField ["Close"] (FuncType [] None)])]] |}.

(** [type Reader interface { Read(p []byte) (n int, err error) }]. *)
Definition readerFile : File :=
  {| Name := "sample";
     Decls := [GenDecl [TypeSpec "Reader"
       (InterfaceType
          [mkField ["Read"]
             (FuncType [mkField ["p"] (ArrayType None (Ident "byte"))]
                       (Some [mkField ["n"] (Ident "int");
                              mkField ["err"] (Ident "error")]))])]] |}.

(** A path element that is neither empty nor [.]. *)
Definition realElem (e : string) : bool := negb (filepath.isDot e).

Definition isDotDot (e : string) : bool := String.eqb e "..".

(** No element of [path] is [..]. *)
Definition noDotDot (path : string) : bool :=
  forallb (fun e => negb (isDotDot e)) (strings.SplitByte "/" path).

(** A name of a file or directory: not empty, not [.], not [..], without
    separator. *)
Definition goodReal (e : string) : bool :=
  negb (filepath.isDot e) && negb (isDotDot e) && negb (hasByte "/" e).

(** The shape of the elements [filepath.Clean] keeps, innermost first:
    names above a run of [..], which is empty in a rooted path. *)
Fixpoint stackOK (rooted : bool) (st : list string) : bool :=
  match st with
  | [] => true
  | e :: st' =>
      if isDotDot e then negb rooted && forallb isDotDot st'
      else goodReal e && stackOK rooted st'
  end.

Fixpoint stripPrefix (pre l : list string) : option (list string) :=
  match pre with
  | [] => Some l
  | x :: pre' =>
      match l with
      | [] => None
      | y :: l' => if String.eqb x y then stripPrefix pre' l' else None
      end
  end.

(** [path] lies beneath the directory [d]: both are rooted or both are not,
    and the elements of [path] are those of [d] followed by elements that
    do not climb back up. *)
Definition isBeneath (path d : string) : bool :=
  Bool.eqb (strings.HasPrefix path "/") (strings.HasPrefix d "/")
  && match stripPrefix (filepath.cleanElems d) (filepath.cleanElems path) with
     | Some rest => forallb (fun e => negb (isDotDot e)) rest
     | None => false
     end.

Import gonerator.

(** The header of a generated file, as the specification lays it out. *)
Definition header (d : TemplateData) : string :=
  "// Code gonerated by " ++ DQ ++ "github.com/myteksi/go/tools/gonerator"
  ++ DQ ++ LF
  ++ "// DO NOT EDIT" ++ LF
  ++ "// @generated " ++ LF
  ++ "//" ++ LF
  ++ "// Args:" ++ LF
  ++ "// TypeName: " ++ TypeName d ++ LF
  ++ "// Template: " ++ TemplateFile d ++ LF
  ++ "// Destination: " ++ OutputFile d ++ LF
  ++ LF.

(** The two warnings of a failed formatting. *)
Definition formatWarnings (outputFile err : string) : list Event :=
  [ Logged (fmt.Sprintf
              "[%s] warning: internal error: invalid Go gonerated: %s"
              [outputFile; err]);
    Logged (fmt.Sprintf
              "[%s] warning: compile the package to analyze the error"
              [outputFile]) ].

(** The steps of [Build] that come before [writeFile]. *)
Definition renderSteps (E : Externals)
    (dir typeName templateFile outputFile extras : string) : M unit :=
  modifyG (setData {| TypeName := typeName; TemplateFile := templateFile;
                      OutputFile := outputFile; PackageName := "";
                      Fields := []; Methods := []; Extras := [] |}) ;;;
  buildHeader ;;;
  match ReadFile E (templatePath dir templateFile) with
  | inl _ => panic
  | inr templateContent =>
      buildTemplateData E extras ;;; generate E templateContent
  end.

(** A Go source file is a file whose name ends in [.go], the test
    [parsePackage] applies to the names of a package. *)
Definition isGoSourceFile (filename : string) : bool :=
  strings.HasSuffix filename ".go".

Definition emptyData : TemplateData :=
  {| TypeName := ""; TemplateFile := ""; OutputFile := ""; PackageName := "";
     Fields := []; Methods := []; Extras := [] |}.

(** A fresh [Gonerator] and nothing done yet. *)
Definition start : State :=
  {| gon := {| buf := ""; pkg := None; data := emptyData |}; trace := [] |}.

(** Two files that declare different packages. *)
Definition alphaFile : ast.File := {| Name := "alpha"; Decls := [] |}.
Definition betaFile : ast.File := {| Name := "beta"; Decls := [] |}.

(** A small world to run the model in: the directory [/src] holds [a.go],
    [b.go] and a template [t.tmpl]; rendering returns the template text; the
    formatter accepts its input unchanged or, with [formats = false],
    rejects it; the file system never fails. *)
Definition world (formats : bool) : Externals :=
  {| fmtFields := noFields;
     unicodeLower := fun s => s;
     GetFields := fun _ _ => [];
     Generate := fun _ templateContent => Some templateContent;
     ReadFile := fun path =>
       if String.eqb path "/src/t.tmpl" then inr ("package main" ++ LF)
       else inl "no such file or directory";
     ImportDir := fun _ => inr ["a.go"; "b.go"];
     ParseFile := fun name =>
       if String.eqb name "/src/a.go" then inr alphaFile
       else if String.eqb name "/src/b.go" then inr betaFile
       else inl "no such file or directory";
     Source := fun src =>
       if formats then inr src else inl "expected declaration";
     MkdirAll := fun _ => None;
     WriteFile := fun _ _ => None |}.

(** The state [ParsePackageDir] leaves in that world. *)
Definition parsed : State :=
  {| gon := {| buf := "";
               pkg := Some {| name := "alpha"; files := [alphaFile; betaFile];
                              dir := "/src";
                              astFiles := [alphaFile; betaFile] |};
               data := emptyData |};
     trace := [] |}.

(** The state of a run for [out.go] in that world once the template has
    been rendered. *)
Definition rendered : State :=
  let d := {| TypeName := "T"; TemplateFile := "t.tmpl";
              OutputFile := "out.go"; PackageName := "";
              Fields := []; Methods := []; Extras := [] |} in
  {| gon := {| buf := header d ++ "package main" ++ LF;
               pkg := pkg (gon parsed);
               data := {| TypeName := "T"; TemplateFile := "t.tmpl";
                          OutputFile := "out.go"; PackageName := "alpha";
                          Fields := []; Methods := []; Extras := [""] |} |};
     trace := [] |}.

(** An extracted slot [o] is the declared slot [d]: the same names, and the
    text of its type. *)
Definition slotOf (F : ast.Expr -> string) (d : ast.Field)
    (o : tmpl.MethodField) : Prop :=
  tmpl.Names o = ast.Names d
  /\ tmpl.Type_ o = tmpl.getTypeString F (ast.Type_ d).

(** An extracted [Method] is the declared method [f]: its first name, and
    its parameter and result slots one by one. *)
Definition describes (F : ast.Expr -> string) (f : ast.Field)
    (m : tmpl.Method) : Prop :=
  match f with
  | ast.mkField names (ast.FuncType ps (Some rs)) =>
      hd_error names = Some (tmpl.Name m)
      /\ Forall2 (slotOf F) ps (tmpl.Params m)
      /\ Forall2 (slotOf F) rs (tmpl.Results m)
  | _ => False
  end.

(** Some declaration of the file gives the name to an interface type. *)
Definition specIsInterface (typeName : string) (sp : ast.Spec) : bool :=
  match sp with
  | ast.TypeSpec name (ast.InterfaceType _) => String.eqb name typeName
  | _ => false
  end.

Definition declaresInterface (file : ast.File) (typeName : string) : bool :=
  existsb (fun d => match d with
                    | ast.GenDecl specs =>
                        existsb (specIsInterface typeName) specs
                    | _ => false
                    end) (ast.Decls file).

(** An array with its length forgotten is a slice. *)
Definition eraseLen (w : Wrapper) : Wrapper :=
  match w with
  | Array _ => Slice
  | _ => w
  end.

(** The first byte of [n] can start an identifier in so far as it is
    neither [*] nor an opening bracket. *)
Definition startsLikeIdent (n : string) : bool :=
  match n with
  | EmptyString => false
  | String c _ => negb (Ascii.eqb c "*") && negb (Ascii.eqb c "[")
  end.

(** Types written with identifiers only: pointers to, slices and arrays of
    such types, package-qualified identifiers, and maps from an identifier
    to an identifier. *)
Fixpoint plain (e : ast.Expr) : bool :=
  match e with
  | ast.Ident _ => true
  | ast.StarExpr x => plain x
  | ast.ArrayType _ elt => plain elt
  | ast.SelectorExpr (ast.Ident _) _ => true
  | ast.MapType (ast.Ident _) (ast.Ident _) => true
  | _ => false
  end.

(** The methods [GetMethods] finds in the files of a package, file after
    file; nothing when it panics on one of them. *)
Fixpoint allMethods (F : ast.Expr -> string) (fs : list ast.File)
    (typeName : string) : option (list tmpl.Method) :=
  match fs with
  | [] => Some []
  | file :: rest =>
      match tmpl.GetMethods F file typeName with
      | None => None
      | Some ms =>
          match allMethods F rest typeName with
          | None => None
          | Some more => Some (ms ++ more)%list
          end
      end
  end.

(** The zero [Package] that [parsePackage] allocates first. *)
Definition emptyPackage : Package :=
  {| name := ""; files := []; dir := ""; astFiles := [] |}.

Definition notWrote (e : Event) : bool :=
  match e with
  | Wrote _ _ => false
  | _ => true
  end.

(** An ASCII letter: directly after a percent sign it is a verb. *)
Definition isLetter (c : ascii) : bool :=
  ((65 <=? nat_of_ascii c)%nat && (nat_of_ascii c <=? 90)%nat)
  || ((97 <=? nat_of_ascii c)%nat && (nat_of_ascii c <=? 122)%nat).

(** The data [Build] starts from. *)
Definition freshData (typeName templateFile outputFile : string)
  : TemplateData :=
  {| TypeName := typeName; TemplateFile := templateFile;
     OutputFile := outputFile; PackageName := "";
     Fields := []; Methods := []; Extras := [] |}.

(** A [Gonerator] asked for the type [Reader], with a package of two files
    that both declare the interface [Reader]. *)
Definition twoReaders : State :=
  {| gon := {| buf := "";
               pkg := Some {| name := "sample";
                              files := [readerFile; readerFile];
                              dir := "/src";
                              astFiles := [readerFile; readerFile] |};
               data := freshData "Reader" "t.tmpl" "out.go" |};
     trace := [] |}.

(** The state in which [Build] returns in the sample world, for the
    destination [out.go] and the extras [x,y]. *)
Definition built : State :=
  {| gon := {| buf := header (freshData "T" "t.tmpl" "out.go")
                      ++ "package main" ++ LF;
               pkg := pkg (gon parsed);
               data := {| TypeName := "T"; TemplateFile := "t.tmpl";
                          OutputFile := "out.go"; PackageName := "alpha";
                          Fields := []; Methods := [];
                          Extras := ["x"; "y"] |} |};
     trace := [MadeDir "/src";
               Wrote "/src/out.go"
                 (header (freshData "T" "t.tmpl" "out.go")
                  ++ "package main" ++ LF)] |}.

End Spec.

(** ** Properties of package [tmpl] *)

Section TmplProperties.
Import ast Spec.

Variable F : Expr -> string.

Lemma extractFieldsFromAst_map (items : list Field) :
  tmpl.extractFieldsFromAst F items = map (tmpl.extractField F) items.
Proof.
  induction items as [|item rest IH]; simpl; [reflexivity|].
  now rewrite IH.
Qed.

(** Slot count and slot order of a field list survive the extraction. *)
Lemma extractFieldsFromAst_length (items : list Field) :
  List.length (tmpl.extractFieldsFromAst F items) = List.length items.
Proof. rewrite extractFieldsFromAst_map. apply length_map. Qed.

(** Each slot keeps its names, an empty sequence for an unnamed slot, and
    gets the text of its type. *)
Lemma extractField_names_type (item : Field) :
  tmpl.Names (tmpl.extractField F item) = ast.Names item
  /\ tmpl.Type_ (tmpl.extractField F item)
     = tmpl.getTypeString F (ast.Type_ item).
Proof. unfold tmpl.extractField; simpl. now rewrite map_id. Qed.

(** On an interface whose methods all have a result list the extraction
    yields one [Method] per method, in declared order; embedded members
    contribute nothing. *)
Lemma methodsOfInterface_with_results (members : list Field) :
  forallb isMethodWithResults (filter isFuncMember members) = true ->
  forall out,
    tmpl.methodsOfInterface F members out
    = Some (out ++ map (methodOf F) (filter isFuncMember members))%list.
Proof.
  induction members as [|m rest IH]; intros Hall out; simpl.
  - now rewrite app_nil_r.
  - destruct m as [names ty]. unfold isFuncMember at 1 in Hall.
    unfold isFuncMember at 1. simpl in *.
    destruct ty; try (now apply IH).
    simpl in Hall. apply andb_true_iff in Hall as [Hm Hrest].
    destruct names as [|n ns]; [discriminate|].
    destruct Results as [rs|]; [|discriminate].
    simpl. rewrite (IH Hrest), <- app_assoc. simpl.
    now rewrite !extractFieldsFromAst_map.
Qed.

Lemma methodsOfSpecs_with_results (typeName : string) (specs : list Spec) :
  forallb isMethodWithResults
    (filter isFuncMember (flat_map (membersOfSpec typeName) specs)) = true ->
  forall out,
    tmpl.methodsOfSpecs F specs typeName out
    = Some (out ++ map (methodOf F)
                     (filter isFuncMember
                        (flat_map (membersOfSpec typeName) specs)))%list.
Proof.
  induction specs as [|sp rest IH]; intros Hall out.
  - simpl. now rewrite app_nil_r.
  - cbn [flat_map] in *. rewrite filter_app, forallb_app in Hall.
    apply andb_true_iff in Hall as [Hsp Hrest].
    rewrite filter_app, map_app, app_assoc.
    destruct sp as [path|names|name ty];
      try (cbn; rewrite app_nil_r; now apply IH).
    destruct ty; try (cbn; rewrite app_nil_r; now apply IH).
    cbn [tmpl.methodsOfSpecs membersOfSpec] in *.
    destruct (String.eqb name typeName).
    + rewrite (methodsOfInterface_with_results _ Hsp). now apply IH.
    + cbn. rewrite app_nil_r. now apply IH.
Qed.

Lemma methodsOfDecls_with_results (typeName : string) (decls : list Decl) :
  forallb isMethodWithResults
    (filter isFuncMember (flat_map (membersOfDecl typeName) decls)) = true ->
  forall out,
    tmpl.methodsOfDecls F decls typeName out
    = Some (out ++ map (methodOf F)
                     (filter isFuncMember
                        (flat_map (membersOfDecl typeName) decls)))%list.
Proof.
  induction decls as [|d rest IH]; intros Hall out.
  - simpl. now rewrite app_nil_r.
  - cbn [flat_map] in *. rewrite filter_app, forallb_app in Hall.
    apply andb_true_iff in Hall as [Hd Hrest].
    rewrite filter_app, map_app, app_assoc.
    destruct d as [|specs|name];
      try (cbn; rewrite app_nil_r; now apply IH).
    cbn [tmpl.methodsOfDecls membersOfDecl] in *.
    rewrite (methodsOfSpecs_with_results _ _ Hd). now apply IH.
Qed.

(** When every method declared under the requested name has a result list,
    [GetMethods] returns one [Method] per method, in declared order, each
    with the parameter and result slots of its declaration. *)
Lemma GetMethods_with_results (file : File) (typeName : string) :
  forallb isMethodWithResults (declaredMethods file typeName) = true ->
  tmpl.GetMethods F file typeName
  = Some (map (methodOf F) (declaredMethods file typeName)).
Proof.
  intros H. unfold tmpl.GetMethods.
  now rewrite (methodsOfDecls_with_results _ _ H).
Qed.

Example GetMethods_reader :
  tmpl.GetMethods F readerFile "Reader"
  = Some [ {| tmpl.Name := "Read";
              tmpl.Params := [ {| tmpl.Names := ["p"];
                                  tmpl.Type_ := "[]byte" |} ];
              tmpl.Results := [ {| tmpl.Names := ["n"];
                                   tmpl.Type_ := "int" |};
                                {| tmpl.Names := ["err"];
                                   tmpl.Type_ := "error" |} ] |} ].
Proof. reflexivity. Qed.

(** C1. The extractor is to return one Method per interface member, also
    for a method that declares no result. On
    [type Closer interface { Close() }] the signature's [Results] is nil,
    [extractParamsAndResults] dereferences it, and [GetMethods] panics
    instead of returning the method [Close] with no result slot. *)
Theorem GetMethods_panics_without_results :
  tmpl.GetMethods F closerFile "Closer" = None.
Proof. reflexivity. Qed.

Lemma getTypeString_wrap (ws : list Wrapper) (T : Expr) :
  tmpl.getTypeString F (wrap ws T) = wrapText ws ++ tmpl.getTypeString F T.
Proof.
  induction ws as [|w ws IH]; simpl; [reflexivity|].
  destruct w; simpl; now rewrite IH.
Qed.

(** C2. The stringifier renders a pointer to T as "*" followed by the
    rendering of T and a slice or array of T as "[]" followed by the
    rendering of T, through any nesting of the two; slice of pointer to
    slice of int is "[]*[]int". *)
Theorem getTypeString_pointer_slice :
  (forall T, tmpl.getTypeString F (StarExpr T)
             = "*" ++ tmpl.getTypeString F T)
  /\ (forall len T, tmpl.getTypeString F (ArrayType len T)
                    = "[]" ++ tmpl.getTypeString F T)
  /\ (forall ws T, tmpl.getTypeString F (wrap ws T)
                   = wrapText ws ++ tmpl.getTypeString F T)
  /\ tmpl.getTypeString F
       (ArrayType None (StarExpr (ArrayType None (Ident "int"))))
     = "[]*[]int".
Proof.
  repeat split; try reflexivity. apply getTypeString_wrap.
Qed.

(** C6. The stringifier is total: every type expression has a rendering.
    A shape that is not an array, a map, a pointer or a qualified name is
    rendered by [fmt]'s generic [%s]: an identifier by its name, any other
    node by a dump that opens with "&{", which is not Go source text. *)
Theorem getTypeString_total_with_fallback (e : Expr) :
  (exists s, tmpl.getTypeString F e = s)
  /\ (handled e = false -> tmpl.getTypeString F e = tmpl.Sprint F e)
  /\ (handled e = false -> isIdent e = false ->
      tmpl.getTypeString F e = "&{" ++ F e ++ "}").
Proof.
  split; [eexists; reflexivity|].
  split; intros; destruct e; simpl in *; try discriminate; reflexivity.
Qed.

End TmplProperties.

(** The fallback at work on [chan int], whatever [fmt] prints for the
    fields of the node. *)
Lemma getTypeString_total_with_fallback_witness :
  tmpl.getTypeString Spec.noFields (ast.ChanType ast.SENDRECV (ast.Ident "int"))
  = "&{}".
Proof.
  apply (getTypeString_total_with_fallback Spec.noFields
           (ast.ChanType ast.SENDRECV (ast.Ident "int"))); reflexivity.
Defined.

(** ** Properties of the string functions *)

Section StringsProperties.

Variable sep : ascii.

Lemma SplitByte_nonempty (s : string) : strings.SplitByte sep s <> [].
Proof.
  destruct s as [|c s]; simpl; [discriminate|].
  destruct (Ascii.eqb c sep); [discriminate|].
  destruct (strings.SplitByte sep s); discriminate.
Qed.

(** Splitting distributes over a separator that joins two strings. *)
Lemma SplitByte_app (a b : string) :
  strings.SplitByte sep (a ++ String sep b)
  = (strings.SplitByte sep a ++ strings.SplitByte sep b)%list.
Proof.
  induction a as [|c a IH]; simpl.
  - now rewrite Ascii.eqb_refl.
  - destruct (Ascii.eqb c sep); [now rewrite IH|].
    rewrite IH.
    destruct (strings.SplitByte sep a) as [|tok toks] eqn:Ha; [|reflexivity].
    now apply SplitByte_nonempty in Ha.
Qed.

Lemma SplitByte_sep_free (s : string) :
  Spec.hasByte sep s = false -> strings.SplitByte sep s = [s].
Proof.
  induction s as [|c s IH]; simpl; [reflexivity|].
  destruct (Ascii.eqb c sep); [discriminate|].
  intros H. now rewrite (IH H).
Qed.

(** No token of a split holds the separator. *)
Lemma SplitByte_tokens_sep_free (s : string) :
  Forall (fun tok => Spec.hasByte sep tok = false) (strings.SplitByte sep s).
Proof.
  induction s as [|c s IH]; simpl.
  - now repeat constructor.
  - destruct (Ascii.eqb c sep) eqn:Hc.
    + now constructor.
    + destruct (strings.SplitByte sep s) as [|tok toks].
      * repeat constructor. simpl. now rewrite Hc.
      * inversion IH; subst. constructor; [|assumption].
        simpl. now rewrite Hc.
Qed.

(** Joining the tokens with the separator gives the string back. *)
Lemma Join_SplitByte (s : string) :
  strings.Join (strings.SplitByte sep s) (String sep "") = s.
Proof.
  induction s as [|c s IH]; simpl; [reflexivity|].
  destruct (Ascii.eqb c sep) eqn:Hc.
  - apply Ascii.eqb_eq in Hc; subst c.
    destruct (strings.SplitByte sep s) as [|tok toks] eqn:Hs.
    + now apply SplitByte_nonempty in Hs.
    + simpl in *. now rewrite IH.
  - destruct (strings.SplitByte sep s) as [|tok toks] eqn:Hs.
    + now apply SplitByte_nonempty in Hs.
    + destruct toks; simpl in *; now rewrite IH.
Qed.

(** The split is the only way to cut a string into separator-free tokens. *)
Lemma SplitByte_Join (toks : list string) :
  toks <> [] ->
  Forall (fun tok => Spec.hasByte sep tok = false) toks ->
  strings.SplitByte sep (strings.Join toks (String sep "")) = toks.
Proof.
  induction toks as [|tok rest IH]; intros Hne Hfree; [congruence|].
  inversion Hfree as [|? ? Htok Hrest]; subst.
  destruct rest as [|tok' rest'].
  - simpl. now apply SplitByte_sep_free.
  - change (strings.Join (tok :: tok' :: rest') (String sep ""))
      with (tok ++ String sep (strings.Join (tok' :: rest') (String sep ""))).
    rewrite SplitByte_app, (SplitByte_sep_free _ Htok), IH;
      [reflexivity|discriminate|assumption].
Qed.

End StringsProperties.

(** ** Properties of package [gonerator] *)

Lemma append_assoc (a b c : string) : (a ++ b) ++ c = a ++ (b ++ c).
Proof. induction a as [|x a IH]; simpl; [reflexivity|now rewrite IH]. Qed.

Lemma append_nil_r (a : string) : a ++ "" = a.
Proof. induction a as [|x a IH]; simpl; [reflexivity|now rewrite IH]. Qed.

Section RunProperties.
Import gonerator Spec.

Variable E : Externals.

Lemma bind_Ok {A B} (m : M A) (k : A -> M B) (s s' : State) (b : B) :
  bind m k s = Ok b s' ->
  exists a s1, m s = Ok a s1 /\ k a s1 = Ok b s'.
Proof.
  unfold bind. destruct (m s) as [a s1| |]; try discriminate.
  intros H. now exists a, s1.
Qed.

Lemma ParsePackageDir_world :
  ParsePackageDir (world true) "/src" start = Ok tt parsed.
Proof. reflexivity. Qed.

Lemma buildHeader_go (s : State) :
  isGo (OutputFile (data (gon s))) = true ->
  buildHeader s
  = Ok tt {| gon := setBuf (buf (gon s) ++ header (data (gon s))) (gon s);
             trace := trace s |}.
Proof.
  intros Hgo. unfold buildHeader, bind, getG. rewrite Hgo.
  unfold printf, modifyG, setBuf, header. simpl.
  repeat (rewrite append_assoc; simpl). reflexivity.
Qed.

Lemma buildHeader_other (s : State) :
  isGo (OutputFile (data (gon s))) = false -> buildHeader s = Ok tt s.
Proof.
  intros Hgo. unfold buildHeader, bind, getG. now rewrite Hgo.
Qed.

(** [findTypeFields] only grows [Fields] and [Methods]. *)
Lemma findTypeFieldsFrom_frame (fs : list ast.File) :
  forall s s',
    findTypeFieldsFrom E fs s = Ok tt s' ->
    pkg (gon s') = pkg (gon s) /\ buf (gon s') = buf (gon s)
    /\ trace s' = trace s
    /\ OutputFile (data (gon s')) = OutputFile (data (gon s)).
Proof.
  induction fs as [|file rest IH]; simpl; intros s s' H.
  - inversion H; subst; auto.
  - unfold bind, getG, modifyG, ret, panic in H; simpl in H.
    destruct (0 <? List.length (GetFields E file (TypeName (data (gon s)))))%nat;
      simpl in H;
      (destruct (tmpl.GetMethods (fmtFields E) file (TypeName (data (gon s))))
         as [methods|]; [|discriminate]);
      destruct (0 <? List.length methods)%nat;
      apply IH in H; simpl in H; exact H.
Qed.

Lemma findTypeFields_frame (s s' : State) :
  findTypeFields E s = Ok tt s' ->
  (exists p, pkg (gon s) = Some p)
  /\ pkg (gon s') = pkg (gon s) /\ buf (gon s') = buf (gon s)
  /\ trace s' = trace s
  /\ OutputFile (data (gon s')) = OutputFile (data (gon s)).
Proof.
  unfold findTypeFields, bind, getG. simpl.
  destruct (pkg (gon s)) as [p|] eqn:Hp; [|discriminate].
  intros H. apply findTypeFieldsFrom_frame in H.
  rewrite Hp in H. split; [now exists p|exact H].
Qed.

(** What [buildTemplateData] makes of the state [findTypeFields] returns. *)
Lemma buildTemplateData_Ok (extras : string) (s s1 : State) :
  findTypeFields E s = Ok tt s1 ->
  exists p,
    pkg (gon s) = Some p
    /\ buildTemplateData E extras s
       = Ok tt
           {| gon := setData
                {| TypeName := TypeName (data (gon s1));
                   TemplateFile := TemplateFile (data (gon s1));
                   OutputFile := OutputFile (data (gon s1));
                   PackageName := name p;
                   Fields := Fields (data (gon s1));
                   Methods := Methods (data (gon s1));
                   Extras := strings.SplitByte "," extras |} (gon s1);
              trace := trace s1 |}.
Proof.
  intros H. destruct (findTypeFields_frame _ _ H) as [[p Hp] [Hpkg _]].
  exists p. split; [exact Hp|].
  unfold buildTemplateData, bind. rewrite H.
  unfold modifyG, getG. simpl. rewrite Hpkg, Hp. reflexivity.
Qed.

Lemma buildTemplateData_inv (extras : string) (s s' : State) :
  buildTemplateData E extras s = Ok tt s' ->
  exists s1, findTypeFields E s = Ok tt s1.
Proof.
  unfold buildTemplateData. intros H.
  apply bind_Ok in H as [[] [s1 [H _]]]. now exists s1.
Qed.

Lemma generate_Ok (templateContent : string) (s s' : State) :
  generate E templateContent s = Ok tt s' ->
  data (gon s') = data (gon s) /\ pkg (gon s') = pkg (gon s).
Proof.
  unfold generate, printf, bind, getG, modifyG, panic.
  destruct (Generate E (data (gon s)) templateContent); [|discriminate].
  intros H; inversion H; subst; simpl; auto.
Qed.

(** [Build] is its rendering steps followed by [writeFile] and the exit on
    the error [writeFile] returns. *)
Lemma Build_split (dir typeName templateFile outputFile extras : string)
    (s : State) :
  Build E dir typeName templateFile outputFile extras s
  = bind (renderSteps E dir typeName templateFile outputFile extras)
         (fun _ =>
            err <- writeFile E dir outputFile typeName ;;
            match err with
            | Some _ => os_Exit (-1)%Z
            | None => ret tt
            end) s.
Proof.
  unfold Build, renderSteps, bind, modifyG. simpl.
  destruct (buildHeader _) as [[] s1| |]; try reflexivity.
  destruct (ReadFile E _); try reflexivity.
  destruct (buildTemplateData E extras s1) as [[] s2| |]; try reflexivity.
Qed.

Lemma renderSteps_Ok (dir typeName templateFile outputFile extras : string)
    (s s1 : State) :
  renderSteps E dir typeName templateFile outputFile extras s = Ok tt s1 ->
  OutputFile (data (gon s1)) = outputFile
  /\ exists p, pkg (gon s) = Some p /\ PackageName (data (gon s1)) = name p.
Proof.
  unfold renderSteps. intros H.
  apply bind_Ok in H as [[] [s2 [H2 H]]].
  apply bind_Ok in H as [[] [s3 [H3 H]]].
  unfold modifyG in H2. inversion H2; subst s2; clear H2.
  assert (Hs3 : data (gon s3) = data (gon (mkState
             (setData {| TypeName := typeName; TemplateFile := templateFile;
                         OutputFile := outputFile; PackageName := "";
                         Fields := []; Methods := []; Extras := [] |}
                      (gon s)) (trace s)))
          /\ pkg (gon s3) = pkg (gon s)).
  { revert H3.
    match goal with |- buildHeader ?st = _ -> _ =>
      destruct (isGo (OutputFile (data (gon st)))) eqn:Hgo end.
    - rewrite (buildHeader_go _ Hgo). intros H3; inversion H3; subst; auto.
    - rewrite (buildHeader_other _ Hgo). intros H3; inversion H3; subst; auto. }
  destruct Hs3 as [Hd3 Hp3]. simpl in Hd3.
  destruct (ReadFile E _) as [|templateContent]; [discriminate|].
  apply bind_Ok in H as [[] [s4 [H4 H]]].
  apply generate_Ok in H as [Hd Hp].
  destruct (buildTemplateData_inv _ _ _ H4) as [s5 H5].
  destruct (buildTemplateData_Ok extras _ _ H5) as [p [Hp' H6]].
  rewrite H6 in H4. inversion H4; subst s4; clear H4.
  apply findTypeFields_frame in H5 as [_ [_ [_ [_ Hout]]]].
  rewrite Hd. simpl. rewrite Hout, Hd3. simpl.
  split; [reflexivity|]. exists p. rewrite <- Hp3. auto.
Qed.

(** [writeFile] when the formatter rejects the buffer: two warnings, the
    directory, the unformatted buffer at [outputName], and the formatter's
    error handed back. *)
Lemma writeFile_unformatted (dir filename typeName err : string) (s : State) :
  isGo filename = true ->
  Source E (buf (gon s)) = inl err ->
  MkdirAll E (filepath.Dir (outputName E dir filename)) = None ->
  WriteFile E (outputName E dir filename) (buf (gon s)) = None ->
  writeFile E dir filename typeName s
  = Ok (Some err)
       {| gon := gon s;
          trace := (trace s
                    ++ formatWarnings (OutputFile (data (gon s))) err
                    ++ [MadeDir (filepath.Dir (outputName E dir filename));
                        Wrote (outputName E dir filename) (buf (gon s))])%list
       |}.
Proof.
  intros Hgo Hsrc Hmk Hwr.
  unfold writeFile, format, log_Printf, emit, bind, getG. rewrite Hgo.
  simpl. rewrite Hsrc. simpl. rewrite Hmk. simpl. rewrite Hwr. simpl.
  unfold ret, formatWarnings. now rewrite <- !app_assoc.
Qed.

(** [writeFile] on a file system that does not fail: whatever the formatter
    does, one file is written, at [outputName], and nowhere else. *)
Lemma writeFile_writes (dir filename typeName : string) (s : State) :
  MkdirAll E (filepath.Dir (outputName E dir filename)) = None ->
  (forall src, WriteFile E (outputName E dir filename) src = None) ->
  exists err src logs,
    writeFile E dir filename typeName s
    = Ok err
         {| gon := gon s;
            trace := (trace s ++ logs
                      ++ [MadeDir (filepath.Dir (outputName E dir filename));
                          Wrote (outputName E dir filename) src])%list |}
    /\ forallb notWrote logs = true.
Proof.
  intros Hmk Hwr.
  unfold writeFile, format, toBytes, log_Printf, emit, bind, getG.
  destruct (isGo filename); simpl.
  - destruct (Source E (buf (gon s))) as [err|src] eqn:Hsrc; simpl;
      rewrite Hmk; simpl; rewrite Hwr; simpl.
    + exists (Some err), (buf (gon s)),
        (formatWarnings (OutputFile (data (gon s))) err).
      split; [|reflexivity].
      unfold ret, formatWarnings. now rewrite <- !app_assoc.
    + exists None, src, []. split; [|reflexivity].
      unfold ret. now rewrite <- !app_assoc.
  - rewrite Hmk; simpl; rewrite Hwr; simpl.
    exists None, (buf (gon s)), []. split; [|reflexivity].
    unfold ret. now rewrite <- !app_assoc.
Qed.

(** C3, as amended. When the formatter rejects the generated Go text, the
    two warnings are logged and the unformatted text is still written to the
    destination; [Build] then ends the process with exit status -1 instead
    of returning. *)
Theorem format_failure_writes_then_exits
    (dir typeName templateFile outputFile extras err : string)
    (s s1 : State) :
  renderSteps E dir typeName templateFile outputFile extras s = Ok tt s1 ->
  isGo outputFile = true ->
  Source E (buf (gon s1)) = inl err ->
  MkdirAll E (filepath.Dir (outputName E dir outputFile)) = None ->
  WriteFile E (outputName E dir outputFile) (buf (gon s1)) = None ->
  Build E dir typeName templateFile outputFile extras s
  = Exited (-1)
      {| gon := gon s1;
         trace := (trace s1 ++ formatWarnings outputFile err
                   ++ [MadeDir (filepath.Dir (outputName E dir outputFile));
                       Wrote (outputName E dir outputFile) (buf (gon s1))])%list
      |}.
Proof.
  intros Hrender Hgo Hsrc Hmk Hwr.
  rewrite Build_split. unfold bind at 1. rewrite Hrender.
  unfold bind.
  rewrite (writeFile_unformatted dir outputFile typeName err s1 Hgo Hsrc Hmk Hwr).
  destruct (renderSteps_Ok _ _ _ _ _ _ _ Hrender) as [Hout _].
  now rewrite Hout.
Qed.

(** C4. The header is to go only on a destination that is a Go source file.
    [isGo] looks for ".go" anywhere in the name, so the destination
    [report.golden], which is no Go source file, gets the header too. *)
Theorem header_on_non_go_destination (typeName templateFile : string)
    (s : State) :
  let d := {| TypeName := typeName; TemplateFile := templateFile;
              OutputFile := "report.golden"; PackageName := "";
              Fields := []; Methods := []; Extras := [] |} in
  isGoSourceFile "report.golden" = false
  /\ buildHeader {| gon := setData d (gon s); trace := trace s |}
     = Ok tt {| gon := setBuf (buf (gon s) ++ header d) (setData d (gon s));
                trace := trace s |}.
Proof.
  split; [reflexivity|].
  now rewrite buildHeader_go.
Qed.

(** C5. The Extras of the template data are the tokens of the extras string
    cut at its commas, in order and unchecked: joined by commas they give the
    string back, none holds a comma, and no other such cut exists. The empty
    string yields the one token "", not an empty sequence. *)
Theorem buildTemplateData_extras (extras : string) (s s1 : State) :
  findTypeFields E s = Ok tt s1 ->
  exists s',
    buildTemplateData E extras s = Ok tt s'
    /\ Extras (data (gon s')) = strings.SplitByte "," extras
    /\ strings.Join (Extras (data (gon s'))) "," = extras
    /\ Forall (fun tok => hasByte "," tok = false) (Extras (data (gon s')))
    /\ (forall toks, toks <> [] ->
          Forall (fun tok => hasByte "," tok = false) toks ->
          strings.Join toks "," = extras -> toks = Extras (data (gon s')))
    /\ (extras = "" -> Extras (data (gon s')) = [""]).
Proof.
  intros H. destruct (buildTemplateData_Ok extras _ _ H) as [p [_ Hb]].
  eexists. split; [exact Hb|]. simpl.
  split; [reflexivity|].
  split; [apply Join_SplitByte|].
  split; [apply SplitByte_tokens_sep_free|].
  split.
  - intros toks Hne Hfree Hjoin. subst extras.
    symmetry. now apply SplitByte_Join.
  - intros ->. reflexivity.
Qed.

(** C8. A relative template path is to be joined to the source directory by
    the path-joining rule. [Build] concatenates the two strings instead:
    with the directory [/src] and the template [t.tmpl] it reads
    [/srct.tmpl], not [/src/t.tmpl], and panics in a world where
    [/src/t.tmpl] exists. An absolute template path is used as given. *)
Theorem templatePath_concatenates :
  (forall dir templateFile,
      templatePath dir templateFile
      = if strings.HasPrefix templateFile "/" then templateFile
        else dir ++ templateFile)
  /\ templatePath "/src" "t.tmpl" = "/srct.tmpl"
  /\ filepath.Join "/src" "t.tmpl" = "/src/t.tmpl"
  /\ ReadFile (world true) "/src/t.tmpl" = inr ("package main" ++ LF)
  /\ exists s',
       Build (world true) "/src" "T" "t.tmpl" "out.go" "" parsed
       = Panicked s'.
Proof.
  split.
  { intros dir templateFile. unfold templatePath.
    now destruct (strings.HasPrefix templateFile "/"). }
  repeat split; try reflexivity.
  eexists. reflexivity.
Qed.

(** The loop of [parsePackage] parses the names ending in [.go], in order. *)
Lemma parseNames_Ok (names : list string) :
  forall acc parsedFiles s,
    Forall2 (fun n f => ParseFile E n = inr f)
            (filter isGoSourceFile names) parsedFiles ->
    parseNames E names acc s = Ok (acc ++ parsedFiles)%list s.
Proof.
  induction names as [|n rest IH]; simpl; intros acc parsedFiles s H.
  - inversion H; subst. now rewrite app_nil_r.
  - unfold isGoSourceFile in H at 1.
    destruct (strings.HasSuffix n ".go"); simpl.
    + inversion H as [|? f ? fs Hn Hrest]; subst. rewrite Hn.
      rewrite (IH _ _ _ Hrest), <- app_assoc. reflexivity.
    + now apply IH.
Qed.

(** C10. The package name of a run is the one declared by the first parsed
    [.go] file of the list, whatever the other files declare:
    [parsePackage] takes it from [astFiles[0]] and a [Build] that returns
    has put it into [TemplateData.PackageName]. *)
Theorem PackageName_of_first_file (directory : string)
    (names : list string) (s : State) (first : ast.File)
    (others : list ast.File) :
  Forall2 (fun n f => ParseFile E n = inr f)
          (filter isGoSourceFile names) (first :: others) ->
  exists s',
    parsePackage E directory names s = Ok tt s'
    /\ (exists p, pkg (gon s') = Some p /\ name p = ast.Name first
                  /\ astFiles p = first :: others)
    /\ forall dir typeName templateFile outputFile extras s'',
         Build E dir typeName templateFile outputFile extras s' = Ok tt s'' ->
         PackageName (data (gon s'')) = ast.Name first.
Proof.
  intros Hparse.
  eexists. split; [|split].
  - unfold parsePackage, bind, modifyG. simpl.
    rewrite (parseNames_Ok names [] _ _ Hparse). simpl. reflexivity.
  - simpl. eexists. repeat split.
  - intros dir typeName templateFile outputFile extras s'' HB.
    rewrite Build_split in HB.
    apply bind_Ok in HB as [[] [s1 [Hrender HB]]].
    apply bind_Ok in HB as [err [s2 [Hwrite HB]]].
    destruct err; [discriminate|]. inversion HB; subst s''; clear HB.
    apply renderSteps_Ok in Hrender as [_ [p [Hp Hname]]].
    simpl in Hp. inversion Hp; subst p; clear Hp. simpl in Hname.
    assert (Hg : gon s2 = gon s1).
    { revert Hwrite.
      unfold writeFile, format, toBytes, log_Fatalf, log_Printf, emit,
        os_Exit, bind, getG, ret.
      destruct (isGo outputFile); simpl;
        [destruct (Source E (buf (gon s1))); simpl|];
        (destruct (MkdirAll E _); simpl; [discriminate|]);
        (destruct (WriteFile E _ _); simpl; [discriminate|]);
        intros H; inversion H; reflexivity. }
    now rewrite Hg.
Qed.

End RunProperties.

(** ** Properties of the path functions *)

Section FilepathProperties.
Import filepath Spec.

Variable r : bool.

Lemma cleanStep_real (e : string) (out : list string) :
  goodReal e = true -> cleanStep r out e = e :: out.
Proof.
  unfold goodReal, cleanStep, isDotDot. intros H.
  apply andb_true_iff in H as [H _]. apply andb_true_iff in H as [H1 H2].
  apply negb_true_iff in H1, H2. now rewrite H1, H2.
Qed.

Lemma fold_real (l : list string) :
  forall acc,
    Forall (fun e => goodReal e = true) l ->
    fold_left (cleanStep r) l acc = (rev l ++ acc)%list.
Proof.
  induction l as [|e l IH]; intros acc H; [reflexivity|].
  inversion H; subst. cbn [fold_left rev].
  rewrite cleanStep_real, IH, <- app_assoc by assumption. reflexivity.
Qed.

(** Elements among which there is no [..] are kept, but for the empty and
    the [.] ones. *)
Lemma fold_noDotDot (l : list string) :
  forall acc,
    forallb (fun e => negb (isDotDot e)) l = true ->
    fold_left (cleanStep r) l acc = (rev (filter realElem l) ++ acc)%list.
Proof.
  induction l as [|e l IH]; intros acc H; [reflexivity|].
  cbn [forallb] in H. apply andb_true_iff in H as [He Hl].
  cbn [fold_left filter]. unfold realElem at 1, cleanStep at 2.
  destruct (isDot e) eqn:Hd; cbn [negb].
  - now apply IH.
  - unfold isDotDot in He. apply negb_true_iff in He. rewrite He.
    rewrite IH by assumption. cbn [rev]. now rewrite <- app_assoc.
Qed.

Lemma stackOK_step (st : list string) (e : string) :
  stackOK r st = true -> hasByte "/" e = false ->
  stackOK r (cleanStep r st e) = true.
Proof.
  intros Hst He. unfold cleanStep.
  destruct (isDot e) eqn:Hd; [assumption|].
  destruct (String.eqb e "..") eqn:Hdd.
  - destruct st as [|top st'].
    + destruct r; [reflexivity|]. cbn. unfold isDotDot. now rewrite Hdd.
    + destruct (String.eqb top "..") eqn:Ht.
      * cbn [stackOK forallb] in *. unfold isDotDot in *.
        rewrite Ht in *. rewrite Hdd.
        apply andb_true_iff in Hst as [-> ->]. reflexivity.
      * cbn [stackOK] in Hst. unfold isDotDot in Hst. rewrite Ht in Hst.
        now apply andb_true_iff in Hst as [_ Hst].
  - cbn [stackOK]. unfold isDotDot, goodReal, isDotDot.
    rewrite Hdd, Hd, He, Hst. reflexivity.
Qed.

Lemma stackOK_fold (l : list string) :
  forall st,
    stackOK r st = true ->
    Forall (fun e => hasByte "/" e = false) l ->
    stackOK r (fold_left (cleanStep r) l st) = true.
Proof.
  induction l as [|e l IH]; intros st Hst Hl; [assumption|].
  inversion Hl; subst. cbn [fold_left]. apply IH; [|assumption].
  now apply stackOK_step.
Qed.

Lemma forallb_isDotDot_repeat (l : list string) :
  forallb isDotDot l = true -> l = repeat ".." (List.length l).
Proof.
  induction l as [|e l IH]; [reflexivity|].
  cbn [forallb]. intros H. apply andb_true_iff in H as [He Hl].
  apply String.eqb_eq in He. subst e. cbn. now rewrite <- IH.
Qed.

Lemma stackOK_decompose (st : list string) :
  stackOK r st = true ->
  exists reals k,
    st = (reals ++ repeat ".." k)%list
    /\ Forall (fun e => goodReal e = true) reals
    /\ (r = true -> k = 0).
Proof.
  induction st as [|e st IH]; intros H.
  - exists [], 0. repeat split; constructor.
  - cbn [stackOK] in H. destruct (isDotDot e) eqn:He.
    + apply andb_true_iff in H as [Hr Hall].
      apply String.eqb_eq in He. subst e.
      exists [], (S (List.length st)). cbn.
      rewrite <- (forallb_isDotDot_repeat _ Hall).
      repeat split; [constructor|].
      intros ->. discriminate.
    + apply andb_true_iff in H as [Hg Hst].
      destruct (IH Hst) as [reals [k [-> [Hreals Hk]]]].
      exists (e :: reals), k. repeat split; [now constructor|assumption].
Qed.

Lemma rev_repeat_dotdot (k : nat) : rev (repeat ".." k) = repeat ".." k.
Proof.
  induction k as [|k IH]; [reflexivity|].
  cbn [repeat rev]. rewrite IH. symmetry. apply repeat_cons.
Qed.

End FilepathProperties.

Section CleanRoundTrip.
Import filepath Spec.

Lemma fold_dotdots (k : nat) :
  forall j,
    fold_left (cleanStep false) (repeat ".." k) (repeat ".." j)
    = repeat ".." (k + j).
Proof.
  induction k as [|k IH]; intros j; [reflexivity|].
  cbn [repeat fold_left].
  replace (cleanStep false (repeat ".." j) "..") with (repeat ".." (S j))
    by (destruct j; reflexivity).
  rewrite IH. f_equal. lia.
Qed.

(** Cleaning the elements of a cleaned path changes nothing. *)
Lemma reclean (r : bool) (st : list string) :
  stackOK r st = true -> fold_left (cleanStep r) (rev st) [] = st.
Proof.
  intros H. destruct (stackOK_decompose r st H) as [reals [k [-> [Hre Hk]]]].
  rewrite rev_app_distr, rev_repeat_dotdot, fold_left_app.
  assert (Hdd : fold_left (cleanStep r) (repeat ".." k) [] = repeat ".." k).
  { destruct r.
    - now rewrite (Hk eq_refl).
    - change (@nil string) with (repeat ".." 0).
      rewrite fold_dotdots. f_equal. lia. }
  rewrite Hdd, fold_real by now apply Forall_rev.
  now rewrite rev_involutive.
Qed.

Lemma stackOK_elems (r : bool) (st : list string) :
  stackOK r st = true ->
  Forall (fun e => hasByte "/" e = false) st
  /\ Forall (fun e => exists c e', e = String c e' /\ Ascii.eqb c "/" = false)
            st.
Proof.
  intros H. destruct (stackOK_decompose r st H) as [reals [k [-> [Hre _]]]].
  split; apply Forall_app; split.
  - eapply Forall_impl; [|exact Hre]. intros e He. unfold goodReal in He.
    apply andb_true_iff in He as [_ He]. now apply negb_true_iff in He.
  - apply Forall_forall. intros e He. apply repeat_spec in He. now subst e.
  - eapply Forall_impl; [|exact Hre]. intros e He. unfold goodReal in He.
    apply andb_true_iff in He as [He Hs]. apply andb_true_iff in He as [He _].
    apply negb_true_iff in Hs. destruct e as [|c e']; [discriminate|].
    exists c, e'. split; [reflexivity|].
    cbn in Hs. now apply orb_false_iff in Hs as [Hs _].
  - apply Forall_forall. intros e He. apply repeat_spec in He. subst e.
    now exists "."%char, ".".
Qed.

(** The elements and the rootedness of a cleaned path can be read back from
    its text. *)
Lemma cleanElems_render (r : bool) (st : list string) :
  stackOK r st = true ->
  cleanElems (render r (rev st)) = rev st
  /\ strings.HasPrefix (render r (rev st)) "/" = r.
Proof.
  intros H.
  destruct (rev st) as [|e l] eqn:Hl.
  - destruct r; split; reflexivity.
  - destruct (stackOK_elems r st H) as [Hfree Hhead].
    apply Forall_rev in Hfree, Hhead. rewrite Hl in Hfree, Hhead.
    assert (Hsplit : strings.SplitByte "/" (strings.Join (e :: l) "/")
                     = e :: l)
      by (apply SplitByte_Join; [discriminate|assumption]).
    assert (Hfold : fold_left (cleanStep r) (e :: l) [] = st)
      by (rewrite <- Hl; now apply reclean).
    inversion Hhead as [|? ? [c [e' [He Hc]]] _]. subst e.
    assert (HJ : exists J, strings.Join (String c e' :: l) "/" = String c J).
    { destruct l; cbn; eauto. }
    destruct HJ as [J HJ].
    unfold render, cleanElems. destruct r.
    + cbn [append String.eqb strings.HasPrefix Ascii.eqb Bool.eqb andb].
      cbn [strings.SplitByte]. rewrite Ascii.eqb_refl.
      cbn [strings.HasPrefix] in *. rewrite Hsplit.
      change (fold_left (cleanStep true) ("" :: String c e' :: l) [])
        with (fold_left (cleanStep true) (String c e' :: l) []).
      rewrite Hfold. split; [exact Hl|reflexivity].
    + cbn [append]. rewrite HJ. cbn [String.eqb strings.HasPrefix].
      rewrite Hc. cbn [andb]. rewrite <- HJ, Hsplit, Hfold.
      split; [exact Hl|reflexivity].
Qed.

Lemma HasPrefix_app (a b : string) :
  a <> "" -> strings.HasPrefix (a ++ b) "/" = strings.HasPrefix a "/".
Proof. destruct a; [congruence|reflexivity]. Qed.

(** The path [Join] makes of a directory and a path without [..]: the
    elements of the directory, then the names of the path. *)
Lemma cleanElems_Join (d f : string) :
  d <> "" -> noDotDot f = true ->
  cleanElems (Join d f)
  = (cleanElems d ++ filter realElem (strings.SplitByte "/" f))%list
  /\ strings.HasPrefix (Join d f) "/" = strings.HasPrefix d "/".
Proof.
  intros Hd Hf. unfold Join.
  destruct (String.eqb_spec d "") as [|_]; [contradiction|]. cbn [negb].
  unfold Clean.
  destruct (String.eqb_spec (d ++ "/" ++ f) "") as [Hempty|_];
    [destruct d; [congruence|discriminate]|].
  rewrite (HasPrefix_app d _ Hd).
  set (r := strings.HasPrefix d "/").
  assert (Hel : cleanElems (d ++ "/" ++ f)
                = rev (rev (filter realElem (strings.SplitByte "/" f))
                       ++ fold_left (cleanStep r)
                            (strings.SplitByte "/" d) [])%list).
  { unfold cleanElems. rewrite (HasPrefix_app d _ Hd). fold r.
    cbn [append]. rewrite SplitByte_app, fold_left_app.
    now rewrite fold_noDotDot. }
  rewrite Hel.
  assert (Hok : stackOK r
                  (rev (filter realElem (strings.SplitByte "/" f))
                   ++ fold_left (cleanStep r) (strings.SplitByte "/" d) [])
                = true).
  { rewrite <- (fold_noDotDot r _ _ Hf), <- fold_left_app.
    apply stackOK_fold; [reflexivity|].
    apply Forall_app; split; apply SplitByte_tokens_sep_free. }
  destruct (cleanElems_render r _ Hok) as [H1 H2].
  rewrite H1, H2. split; [|reflexivity].
  rewrite rev_app_distr, rev_involutive. reflexivity.
Qed.

End CleanRoundTrip.

(** ** Lower-casing and path elements *)

Section LowerCase.
Import filepath Spec.

Lemma lowerByte_eqb_slash (c : ascii) :
  Ascii.eqb (strings.lowerByte c) "/" = Ascii.eqb c "/".
Proof. destruct c as [[] [] [] [] [] [] [] []]; reflexivity. Qed.

Lemma lowerByte_eqb_dot (c : ascii) :
  Ascii.eqb (strings.lowerByte c) "." = Ascii.eqb c ".".
Proof. destruct c as [[] [] [] [] [] [] [] []]; reflexivity. Qed.

Local Abbreviation lower := (strings.mapBytes strings.lowerByte).

(** Lower-casing does not move a separator. *)
Lemma SplitByte_lower (s : string) :
  strings.SplitByte "/" (lower s) = map lower (strings.SplitByte "/" s).
Proof.
  induction s as [|c s IH]; [reflexivity|].
  cbn [strings.mapBytes strings.SplitByte].
  rewrite lowerByte_eqb_slash, IH.
  destruct (Ascii.eqb c "/"); [reflexivity|].
  now destruct (strings.SplitByte "/" s).
Qed.

Lemma lower_eqb_empty (e : string) : String.eqb (lower e) "" = String.eqb e "".
Proof. now destruct e. Qed.

Lemma lower_eqb_dot (e : string) : String.eqb (lower e) "." = String.eqb e ".".
Proof.
  destruct e as [|c e]; [reflexivity|].
  cbn [strings.mapBytes String.eqb].
  now rewrite lowerByte_eqb_dot, lower_eqb_empty.
Qed.

Lemma isDot_lower (e : string) : isDot (lower e) = isDot e.
Proof. unfold isDot. now rewrite lower_eqb_empty, lower_eqb_dot. Qed.

Lemma isDotDot_lower (e : string) : isDotDot (lower e) = isDotDot e.
Proof.
  unfold isDotDot. destruct e as [|c e]; [reflexivity|].
  cbn [strings.mapBytes String.eqb].
  now rewrite lowerByte_eqb_dot, lower_eqb_dot.
Qed.

Lemma noDotDot_lower (f : string) : noDotDot (lower f) = noDotDot f.
Proof.
  unfold noDotDot. rewrite SplitByte_lower.
  induction (strings.SplitByte "/" f) as [|e l IH]; [reflexivity|].
  cbn [map forallb]. now rewrite isDotDot_lower, IH.
Qed.

Lemma filter_realElem_lower (l : list string) :
  filter realElem (map lower l) = map lower (filter realElem l).
Proof.
  induction l as [|e l IH]; [reflexivity|].
  cbn [map filter].
  replace (realElem (lower e)) with (realElem e)
    by (unfold realElem; now rewrite isDot_lower).
  destruct (realElem e); cbn [map]; now rewrite IH.
Qed.

Variable E : gonerator.Externals.

(** The elements of [outputName]: those of the directory as they are, then
    every name of the file argument in lower case. *)
Lemma outputName_elems (dir filename : string) :
  String.eqb dir "" = false ->
  strings.isASCII filename = true ->
  noDotDot filename = true ->
  cleanElems (gonerator.outputName E dir filename)
  = (cleanElems dir
     ++ map lower (filter realElem (strings.SplitByte "/" filename)))%list
  /\ strings.HasPrefix (gonerator.outputName E dir filename) "/"
     = strings.HasPrefix dir "/".
Proof.
  intros Hd Hascii Hdd. apply String.eqb_neq in Hd.
  unfold gonerator.outputName, strings.ToLower. rewrite Hascii.
  rewrite <- noDotDot_lower in Hdd.
  destruct (cleanElems_Join dir (lower filename) Hd Hdd) as [H1 H2].
  rewrite H1, H2, SplitByte_lower, filter_realElem_lower. now split.
Qed.

Lemma stripPrefix_app (pre rest : list string) :
  stripPrefix pre (pre ++ rest) = Some rest.
Proof.
  induction pre as [|x pre IH]; [reflexivity|].
  cbn. now rewrite String.eqb_refl.
Qed.

(** The elements of [outputName] without assuming ASCII: those of the
    directory as they are, then the names of the lower-cased argument. *)
Lemma outputName_elems_lowered (dir filename : string) :
  String.eqb dir "" = false ->
  noDotDot (strings.ToLower (gonerator.unicodeLower E) filename) = true ->
  cleanElems (gonerator.outputName E dir filename)
  = (cleanElems dir
     ++ filter realElem
          (strings.SplitByte "/"
             (strings.ToLower (gonerator.unicodeLower E) filename)))%list
  /\ strings.HasPrefix (gonerator.outputName E dir filename) "/"
     = strings.HasPrefix dir "/".
Proof.
  intros Hd Hdd. apply String.eqb_neq in Hd.
  exact (cleanElems_Join dir _ Hd Hdd).
Qed.

(** C7, as amended. The writer lower-cases the whole outputFile argument,
    not only its file name: it writes one file and no other, at the source
    directory joined with the lower-cased argument. For a source directory
    that is not empty and a lower-cased argument without [..] element, the
    written path is made of the elements of the source directory as they
    are, followed by the elements of the lower-cased argument, directories
    and file name alike; for an ASCII argument these are the elements of
    the argument, each in lower case. *)
Theorem writeFile_lowers_every_element
    (dir filename typeName : string) (s : gonerator.State) :
  gonerator.MkdirAll E (Dir (gonerator.outputName E dir filename)) = None ->
  (forall src,
      gonerator.WriteFile E (gonerator.outputName E dir filename) src = None) ->
  (exists err src logs,
      gonerator.writeFile E dir filename typeName s
      = gonerator.Ok err
          {| gonerator.gon := gonerator.gon s;
             gonerator.trace :=
               (gonerator.trace s ++ logs
                ++ [gonerator.MadeDir
                      (Dir (gonerator.outputName E dir filename));
                    gonerator.Wrote
                      (gonerator.outputName E dir filename) src])%list |}
      /\ forallb notWrote logs = true)
  /\ gonerator.outputName E dir filename
     = Join dir (strings.ToLower (gonerator.unicodeLower E) filename)
  /\ (String.eqb dir "" = false ->
      noDotDot (strings.ToLower (gonerator.unicodeLower E) filename) = true ->
      cleanElems (gonerator.outputName E dir filename)
      = (cleanElems dir
         ++ filter realElem
              (strings.SplitByte "/"
                 (strings.ToLower (gonerator.unicodeLower E) filename)))%list)
  /\ (String.eqb dir "" = false ->
      strings.isASCII filename = true ->
      noDotDot filename = true ->
      cleanElems (gonerator.outputName E dir filename)
      = (cleanElems dir
         ++ map lower (filter realElem (strings.SplitByte "/" filename)))%list).
Proof.
  intros Hmk Hwr. split; [|split; [|split]].
  - exact (writeFile_writes E dir filename typeName s Hmk Hwr).
  - reflexivity.
  - intros Hd Hdd. now apply outputName_elems_lowered.
  - intros Hd Hascii Hdd. now apply outputName_elems.
Qed.

(** C9, as amended. [writeFile] writes one file and no other, at the source
    directory joined with the lower-cased outputFile argument. When the
    directory is not empty and the lower-cased argument has no [..]
    element, that path lies beneath the source directory, for an absolute
    outputFile too. *)
Theorem writeFile_path_joined_beneath
    (dir filename typeName : string) (s : gonerator.State) :
  gonerator.MkdirAll E (Dir (gonerator.outputName E dir filename)) = None ->
  (forall src,
      gonerator.WriteFile E (gonerator.outputName E dir filename) src = None) ->
  (exists err src logs,
      gonerator.writeFile E dir filename typeName s
      = gonerator.Ok err
          {| gonerator.gon := gonerator.gon s;
             gonerator.trace :=
               (gonerator.trace s ++ logs
                ++ [gonerator.MadeDir
                      (Dir (Join dir (strings.ToLower
                                        (gonerator.unicodeLower E) filename)));
                    gonerator.Wrote
                      (Join dir (strings.ToLower
                                   (gonerator.unicodeLower E) filename))
                      src])%list |}
      /\ forallb notWrote logs = true)
  /\ (String.eqb dir "" = false ->
      noDotDot (strings.ToLower (gonerator.unicodeLower E) filename) = true ->
      isBeneath (Join dir (strings.ToLower (gonerator.unicodeLower E) filename))
                dir = true).
Proof.
  intros Hmk Hwr. split.
  - exact (writeFile_writes E dir filename typeName s Hmk Hwr).
  - intros Hd Hdd.
    destruct (outputName_elems_lowered dir filename Hd Hdd) as [H1 H2].
    unfold gonerator.outputName in H1, H2.
    unfold isBeneath. rewrite H1, H2, Bool.eqb_reflx, stripPrefix_app.
    cbn [andb]. unfold noDotDot in Hdd.
    apply forallb_forall. intros e He. apply filter_In in He as [He _].
    rewrite forallb_forall in Hdd. now apply Hdd.
Qed.

End LowerCase.

(** ** A Go source file always gets the header *)

Lemma HasPrefix_substring (sub : string) :
  forall s, substring 0 (String.length sub) s = sub ->
            strings.HasPrefix s sub = true.
Proof.
  induction sub as [|c sub IH]; intros s H; [reflexivity|].
  destruct s as [|x s]; [discriminate|].
  cbn in H. inversion H; subst x.
  cbn. rewrite Ascii.eqb_refl. cbn. rewrite H2. now apply IH.
Qed.

Lemma Contains_substring (sub : string) (n : nat) :
  forall s, substring n (String.length sub) s = sub ->
            strings.Contains s sub = true.
Proof.
  induction n as [|n IH]; intros s H.
  - destruct s; cbn; rewrite (HasPrefix_substring _ _ H); reflexivity.
  - destruct s as [|x s].
    + destruct sub; [reflexivity|discriminate].
    + cbn in H. cbn. rewrite (IH _ H). apply orb_true_r.
Qed.

(** A destination whose name ends in [.go] passes [isGo]. *)
Lemma isGo_of_go_source_file (filename : string) :
  Spec.isGoSourceFile filename = true -> gonerator.isGo filename = true.
Proof.
  unfold Spec.isGoSourceFile, strings.HasSuffix, gonerator.isGo. intros H.
  apply andb_true_iff in H as [_ H]. apply String.eqb_eq in H.
  exact (Contains_substring ".go" _ _ H).
Qed.

(** ** Runs in the sample world *)

Section SampleRuns.
Import gonerator Spec.

(** Parsing [/src] and building [out.go] from [t.tmpl]: the run returns,
    the package name is that of [a.go], and the file holds the header
    followed by the rendered template. *)
Example sample_run :
  exists s s',
    ParsePackageDir (world true) "/src" start = Ok tt s
    /\ Build (world true) "/src/" "T" "t.tmpl" "out.go" "x,y" s = Ok tt s'
    /\ PackageName (data (gon s')) = "alpha"
    /\ Extras (data (gon s')) = ["x"; "y"]
    /\ trace s'
       = [MadeDir "/src";
          Wrote "/src/out.go" (header (data (gon s')) ++ "package main" ++ LF)].
Proof.
  exists parsed.
  destruct (Build (world true) "/src/" "T" "t.tmpl" "out.go" "x,y" parsed)
    as [[] s'| |] eqn:HB; vm_compute in HB; try discriminate HB.
  injection HB as <-. exists
    {| gon := {| buf := header {| TypeName := "T"; TemplateFile := "t.tmpl";
                                OutputFile := "out.go"; PackageName := "";
                                Fields := []; Methods := []; Extras := [] |}
                        ++ "package main" ++ LF;
                 pkg := pkg (gon parsed);
                 data := {| TypeName := "T"; TemplateFile := "t.tmpl";
                            OutputFile := "out.go"; PackageName := "alpha";
                            Fields := []; Methods := [];
                            Extras := ["x"; "y"] |} |};
       trace := [MadeDir "/src";
                 Wrote "/src/out.go"
                   (header {| TypeName := "T"; TemplateFile := "t.tmpl";
                              OutputFile := "out.go"; PackageName := "";
                              Fields := []; Methods := []; Extras := [] |}
                    ++ "package main" ++ LF)] |}.
  vm_compute. repeat split.
Qed.

End SampleRuns.

Lemma format_failure_writes_then_exits_witness :
  exists s',
    gonerator.Build (Spec.world false) "/src/" "T" "t.tmpl" "out.go" ""
      Spec.parsed
    = gonerator.Exited (-1) s'.
Proof.
  eexists.
  apply (format_failure_writes_then_exits (Spec.world false)
           "/src/" "T" "t.tmpl" "out.go" "" "expected declaration"
           Spec.parsed Spec.rendered);
    vm_compute; reflexivity.
Defined.

(** C3, as stated, fails. In the sample world with a formatter that rejects
    the text, the warnings are logged and the unformatted buffer is written
    to [/src/out.go], but the run does not complete: [Build] exits with
    status -1. *)
Lemma format_failure_is_fatal :
  (exists s',
      gonerator.Build (Spec.world false) "/src/" "T" "t.tmpl" "out.go" ""
        Spec.parsed
      = gonerator.Exited (-1) s'
      /\ In (gonerator.Wrote "/src/out.go" (gonerator.buf (gonerator.gon s')))
            (gonerator.trace s'))
  /\ ~ (exists s',
          gonerator.Build (Spec.world false) "/src/" "T" "t.tmpl" "out.go" ""
            Spec.parsed
          = gonerator.Ok tt s').
Proof.
  destruct (gonerator.Build (Spec.world false) "/src/" "T" "t.tmpl" "out.go"
              "" Spec.parsed) as [[] s'|code s'|s'] eqn:HB;
    vm_compute in HB; try discriminate HB.
  injection HB as <- <-. split.
  - eexists. split; [reflexivity|]. vm_compute. tauto.
  - intros [s'' H]. discriminate H.
Qed.

Lemma buildTemplateData_extras_witness :
  exists s',
    gonerator.buildTemplateData (Spec.world true) "" Spec.parsed
    = gonerator.Ok tt s'
    /\ gonerator.Extras (gonerator.data (gonerator.gon s')) = [""].
Proof.
  destruct (buildTemplateData_extras (Spec.world true) "" Spec.parsed
              Spec.parsed eq_refl)
    as [s' [Hrun [_ [_ [_ [_ Hempty]]]]]].
  exists s'. split; [exact Hrun|]. apply Hempty. reflexivity.
Defined.

Lemma writeFile_lowers_every_element_witness :
  (exists err src logs,
      gonerator.writeFile (Spec.world true) "/src" "Sub/Gen.go" "T" Spec.parsed
      = gonerator.Ok err
          {| gonerator.gon := gonerator.gon Spec.parsed;
             gonerator.trace :=
               (gonerator.trace Spec.parsed ++ logs
                ++ [gonerator.MadeDir "/src/sub";
                    gonerator.Wrote "/src/sub/gen.go" src])%list |}
      /\ forallb Spec.notWrote logs = true)
  /\ filepath.cleanElems "/src/sub/gen.go" = ["src"; "sub"; "gen.go"].
Proof.
  destruct (writeFile_lowers_every_element (Spec.world true)
              "/src" "Sub/Gen.go" "T" Spec.parsed)
    as [Hwrite [_ [Hlowered _]]]; [reflexivity|intros; reflexivity|].
  split; [exact Hwrite|]. apply Hlowered; reflexivity.
Defined.

(** C7, as stated, fails. For the destination [Sub/Gen.go] under [/src] the
    writer creates and writes into [/src/sub], not [/src/Sub]: a directory
    of the destination path has been case-folded. *)
Lemma directory_elements_are_lowered :
  gonerator.writeFile (Spec.world true) "/src" "Sub/Gen.go" "T" Spec.parsed
  = gonerator.Ok None
      {| gonerator.gon := gonerator.gon Spec.parsed;
         gonerator.trace := [gonerator.MadeDir "/src/sub";
                             gonerator.Wrote "/src/sub/gen.go" ""] |}
  /\ filepath.Dir (filepath.Join "/src" "Sub/Gen.go") = "/src/Sub"
  /\ filepath.Dir (gonerator.outputName (Spec.world true) "/src" "Sub/Gen.go")
     <> filepath.Dir (filepath.Join "/src" "Sub/Gen.go").
Proof. repeat split. discriminate. Qed.

Lemma writeFile_path_joined_beneath_witness :
  (exists err src logs,
      gonerator.writeFile (Spec.world true) "/src" "/etc/Motd.go" "T"
        Spec.parsed
      = gonerator.Ok err
          {| gonerator.gon := gonerator.gon Spec.parsed;
             gonerator.trace :=
               (gonerator.trace Spec.parsed ++ logs
                ++ [gonerator.MadeDir "/src/etc";
                    gonerator.Wrote "/src/etc/motd.go" src])%list |}
      /\ forallb Spec.notWrote logs = true)
  /\ Spec.isBeneath "/src/etc/motd.go" "/src" = true.
Proof.
  destruct (writeFile_path_joined_beneath (Spec.world true)
              "/src" "/etc/Motd.go" "T" Spec.parsed)
    as [Hwrite Hbeneath]; [reflexivity|intros; reflexivity|].
  split; [exact Hwrite|]. apply Hbeneath; reflexivity.
Defined.

(** C9, as stated, fails. With the source directory [/a/b] and the
    destination [../c.go] the file is written to [/a/c.go], which does not
    lie beneath [/a/b]. *)
Lemma dotdot_leaves_source_directory :
  gonerator.writeFile (Spec.world true) "/a/b" "../c.go" "T" Spec.parsed
  = gonerator.Ok None
      {| gonerator.gon := gonerator.gon Spec.parsed;
         gonerator.trace := [gonerator.MadeDir "/a";
                             gonerator.Wrote "/a/c.go" ""] |}
  /\ Spec.isBeneath "/a/c.go" "/a/b" = false.
Proof. split; reflexivity. Qed.

Lemma PackageName_of_first_file_witness :
  exists s',
    gonerator.parsePackage (Spec.world true) "/src"
      ["/src/a.go"; "/src/notes.txt"; "/src/b.go"] Spec.start
    = gonerator.Ok tt s'
    /\ exists p,
         gonerator.pkg (gonerator.gon s') = Some p
         /\ gonerator.name p = "alpha"
         /\ gonerator.astFiles p = [Spec.alphaFile; Spec.betaFile].
Proof.
  destruct (PackageName_of_first_file (Spec.world true) "/src"
              ["/src/a.go"; "/src/notes.txt"; "/src/b.go"] Spec.start
              Spec.alphaFile [Spec.betaFile])
    as [s' [Hrun [Hpkg _]]].
  - simpl. repeat constructor.
  - exists s'. split; assumption.
Defined.

(** ** More on package [tmpl] *)

Section TmplCoverage.
Import ast Spec.

Variable F : Expr -> string.

Lemma extractFieldsFromAst_slots (items : list Field) :
  Forall2 (slotOf F) items (tmpl.extractFieldsFromAst F items).
Proof.
  induction items as [|item rest IH]; simpl; constructor; [|exact IH].
  unfold slotOf, tmpl.extractField. simpl. now rewrite map_id.
Qed.

Lemma methodOf_describes (members : list Field) :
  forallb isMethodWithResults members = true ->
  Forall2 (describes F) members (map (methodOf F) members).
Proof.
  induction members as [|m rest IH]; intros H; simpl; constructor.
  - simpl in H. apply andb_true_iff in H as [Hm _].
    destruct m as [[|n ns] ty]; simpl in Hm; try discriminate.
    destruct ty; try discriminate.
    destruct Results as [rs|]; try discriminate.
    simpl. rewrite <- !extractFieldsFromAst_map.
    repeat split; apply extractFieldsFromAst_slots.
  - apply IH. simpl in H. now apply andb_true_iff in H as [_ H].
Qed.

(** X1. When every method declared under the requested name has a result
    list, [GetMethods] returns one [Method] per declared method, in the
    order of the file and across all declarations of the name; each carries
    the method's name and, slot by slot, the names and the type text of its
    parameters and results. *)
Theorem GetMethods_describes_declared_methods (file : File)
    (typeName : string) :
  forallb isMethodWithResults (declaredMethods file typeName) = true ->
  exists methods,
    tmpl.GetMethods F file typeName = Some methods
    /\ Forall2 (describes F) (declaredMethods file typeName) methods.
Proof.
  intros H. eexists. split.
  - now apply GetMethods_with_results.
  - now apply methodOf_describes.
Qed.

Lemma methodsOfInterface_None (members : list Field) :
  forallb isMethodWithResults (filter isFuncMember members) = false ->
  forall out, tmpl.methodsOfInterface F members out = None.
Proof.
  induction members as [|m rest IH]; intros H out; [discriminate|].
  destruct m as [names ty]. cbn [filter] in H.
  unfold isFuncMember at 1 in H. cbn [ast.Type_] in H.
  cbn [tmpl.methodsOfInterface ast.Type_ ast.Names].
  destruct ty; try (now apply IH).
  cbn [forallb] in H.
  destruct Results as [rs|]; [|reflexivity].
  destruct names as [|n ns]; [reflexivity|].
  cbn in H. cbn. now apply IH.
Qed.

Lemma methodsOfSpecs_None (typeName : string) (specs : list Spec) :
  forallb isMethodWithResults
    (filter isFuncMember (flat_map (membersOfSpec typeName) specs)) = false ->
  forall out, tmpl.methodsOfSpecs F specs typeName out = None.
Proof.
  induction specs as [|sp rest IH]; intros H out; [discriminate|].
  cbn [flat_map] in H. rewrite filter_app, forallb_app in H.
  destruct sp as [path|names|name ty]; try (now apply IH).
  destruct ty; try (now apply IH).
  cbn [tmpl.methodsOfSpecs membersOfSpec] in *.
  destruct (String.eqb name typeName); [|now apply IH].
  destruct (forallb isMethodWithResults (filter isFuncMember Methods))
    eqn:Hhere.
  - rewrite (methodsOfInterface_with_results F _ Hhere). now apply IH.
  - now rewrite (methodsOfInterface_None _ Hhere).
Qed.

Lemma methodsOfDecls_None (typeName : string) (decls : list Decl) :
  forallb isMethodWithResults
    (filter isFuncMember (flat_map (membersOfDecl typeName) decls)) = false ->
  forall out, tmpl.methodsOfDecls F decls typeName out = None.
Proof.
  induction decls as [|d rest IH]; intros H out; [discriminate|].
  cbn [flat_map] in H. rewrite filter_app, forallb_app in H.
  destruct d as [|specs|name]; try (now apply IH).
  cbn [tmpl.methodsOfDecls membersOfDecl] in *.
  destruct (forallb isMethodWithResults
              (filter isFuncMember (flat_map (membersOfSpec typeName) specs)))
    eqn:Hhere.
  - rewrite (methodsOfSpecs_with_results F _ _ Hhere). now apply IH.
  - now rewrite (methodsOfSpecs_None _ _ Hhere).
Qed.

(** X2. [GetMethods] panics exactly when some method declared under the
    requested name has no result list (or no name); methods declared under
    other names, in structs or in functions never make it panic. *)
Theorem GetMethods_panics_iff (file : File) (typeName : string) :
  tmpl.GetMethods F file typeName = None
  <-> forallb isMethodWithResults (declaredMethods file typeName) = false.
Proof.
  split.
  - intros Hnone.
    destruct (forallb isMethodWithResults (declaredMethods file typeName))
      eqn:Hall; [|reflexivity].
    rewrite (GetMethods_with_results F _ _ Hall) in Hnone. discriminate.
  - intros Hall. now apply methodsOfDecls_None.
Qed.

Lemma membersOfSpec_other (typeName : string) (specs : list Spec) :
  existsb (specIsInterface typeName) specs = false ->
  flat_map (membersOfSpec typeName) specs = [].
Proof.
  induction specs as [|sp rest IH]; [reflexivity|].
  cbn [existsb flat_map]. intros H. apply orb_false_iff in H as [Hsp Hrest].
  rewrite (IH Hrest), app_nil_r.
  destruct sp as [path|names|name ty]; try reflexivity.
  destruct ty; try reflexivity.
  cbn in *. now rewrite Hsp.
Qed.

(** X3. A type name that no interface declaration of the file carries (a
    struct of that name, another interface, no declaration at all) gives
    the empty slice and no panic. *)
Theorem GetMethods_without_interface (file : File) (typeName : string) :
  declaresInterface file typeName = false ->
  tmpl.GetMethods F file typeName = Some [].
Proof.
  intros H.
  assert (Hnone : flat_map (membersOfDecl typeName) (Decls file) = []).
  { unfold declaresInterface in H.
    induction (Decls file) as [|d rest IH]; [reflexivity|].
    cbn [existsb flat_map] in *. apply orb_false_iff in H as [Hd Hrest].
    rewrite (IH Hrest), app_nil_r.
    destruct d as [|specs|name]; try reflexivity.
    now apply membersOfSpec_other. }
  rewrite GetMethods_with_results; unfold declaredMethods; rewrite Hnone;
    reflexivity.
Qed.

Lemma wrapText_inj (ws : list Wrapper) :
  forall ws' n n',
    startsLikeIdent n = true -> startsLikeIdent n' = true ->
    wrapText ws ++ n = wrapText ws' ++ n' ->
    map eraseLen ws = map eraseLen ws' /\ n = n'.
Proof.
  induction ws as [|w ws IH]; intros ws' n n' Hn Hn' H.
  - destruct ws' as [|w' ws']; [now split|].
    exfalso. destruct n as [|c n]; [discriminate|].
    destruct w'; cbn in H; inversion H; subst c; discriminate.
  - destruct ws' as [|w' ws'].
    + exfalso. destruct n' as [|c n']; [discriminate|].
      destruct w; cbn in H; inversion H; subst c; discriminate.
    + destruct w, w'; cbn in H; try discriminate;
        inversion H as [H1];
        destruct (IH ws' n n' Hn Hn' H1) as [Hws Hnn];
        cbn; now rewrite Hws.
Qed.

(** X4. On a type built from an identifier by pointers, slices and arrays
    the text determines the type up to the array lengths: two such types
    with the same rendering have the same identifier and the same sequence
    of pointer and slice-or-array constructors. *)
Theorem getTypeString_injective_up_to_lengths
    (ws ws' : list Wrapper) (n n' : string) :
  startsLikeIdent n = true -> startsLikeIdent n' = true ->
  tmpl.getTypeString F (wrap ws (Ident n))
  = tmpl.getTypeString F (wrap ws' (Ident n')) ->
  map eraseLen ws = map eraseLen ws' /\ n = n'.
Proof.
  intros Hn Hn'. rewrite !getTypeString_wrap. simpl.
  now apply wrapText_inj.
Qed.

(** X5. The text of a type written with identifiers only (pointers, slices,
    arrays, qualified identifiers, maps from identifier to identifier) does
    not depend on how [fmt] dumps syntax nodes: no dump enters it. *)
Theorem getTypeString_plain_independent (G : Expr -> string) (e : Expr) :
  plain e = true -> tmpl.getTypeString F e = tmpl.getTypeString G e.
Proof.
  induction e; simpl; intros H; try discriminate; try reflexivity.
  - destruct e; try discriminate. reflexivity.
  - now rewrite IHe.
  - now rewrite IHe.
  - destruct e1; try discriminate. destruct e2; try discriminate.
    reflexivity.
Qed.

End TmplCoverage.

(** ** More on package [gonerator]: collecting fields and methods *)

Section CollectCoverage.
Import gonerator Spec.

Variable E : Externals.

(** One round of the loop of [findTypeFields]. *)
Lemma findTypeFieldsFrom_step (file : ast.File) (rest : list ast.File)
    (s : State) (ms : list tmpl.Method) :
  tmpl.GetMethods (fmtFields E) file (TypeName (data (gon s))) = Some ms ->
  exists s2,
    findTypeFieldsFrom E (file :: rest) s = findTypeFieldsFrom E rest s2
    /\ data (gon s2)
       = {| TypeName := TypeName (data (gon s));
            TemplateFile := TemplateFile (data (gon s));
            OutputFile := OutputFile (data (gon s));
            PackageName := PackageName (data (gon s));
            Fields := (Fields (data (gon s))
                       ++ GetFields E file (TypeName (data (gon s))))%list;
            Methods := (Methods (data (gon s)) ++ ms)%list;
            Extras := Extras (data (gon s)) |}
    /\ pkg (gon s2) = pkg (gon s) /\ buf (gon s2) = buf (gon s)
    /\ trace s2 = trace s.
Proof.
  intros Hms. cbn [findTypeFieldsFrom]. unfold bind, getG, modifyG, ret.
  cbn beta iota. rewrite Hms.
  destruct s as [[b p d] t]. cbn [gon data trace buf pkg] in *.
  destruct d as [tn tf out pn fields methods extras].
  cbn [TypeName TemplateFile OutputFile PackageName Fields Methods Extras] in *.
  destruct (GetFields E file tn) as [|f fs] eqn:Hf;
    destruct ms as [|m ms']; cbn; eexists; (split; [reflexivity|]);
    cbn; rewrite ?app_nil_r; repeat split; reflexivity.
Qed.

Lemma findTypeFieldsFrom_collects (fs : list ast.File) :
  forall s ms,
    allMethods (fmtFields E) fs (TypeName (data (gon s))) = Some ms ->
    exists s',
      findTypeFieldsFrom E fs s = Ok tt s'
      /\ data (gon s')
         = {| TypeName := TypeName (data (gon s));
              TemplateFile := TemplateFile (data (gon s));
              OutputFile := OutputFile (data (gon s));
              PackageName := PackageName (data (gon s));
              Fields := (Fields (data (gon s))
                         ++ flat_map (fun f => GetFields E f
                                        (TypeName (data (gon s)))) fs)%list;
              Methods := (Methods (data (gon s)) ++ ms)%list;
              Extras := Extras (data (gon s)) |}
      /\ pkg (gon s') = pkg (gon s) /\ buf (gon s') = buf (gon s)
      /\ trace s' = trace s.
Proof.
  induction fs as [|file rest IH]; intros s ms H.
  - cbn in H. inversion H; subst ms. exists s. cbn.
    rewrite !app_nil_r. destruct (data (gon s)). repeat split.
  - cbn [allMethods] in H.
    destruct (tmpl.GetMethods (fmtFields E) file (TypeName (data (gon s))))
      as [m1|] eqn:Hm1; [|discriminate].
    destruct (allMethods (fmtFields E) rest (TypeName (data (gon s))))
      as [m2|] eqn:Hm2; [|discriminate].
    inversion H; subst ms; clear H.
    destruct (findTypeFieldsFrom_step file rest s m1 Hm1)
      as [s2 [Hstep [Hd [Hp [Hb Ht]]]]].
    assert (Htn : TypeName (data (gon s2)) = TypeName (data (gon s)))
      by now rewrite Hd.
    rewrite <- Htn in Hm2.
    destruct (IH s2 m2 Hm2) as [s' [Hrun [Hd' [Hp' [Hb' Ht']]]]].
    exists s'. rewrite Hstep. split; [exact Hrun|].
    rewrite Hd', Hd, Hp', Hp, Hb', Hb, Ht', Ht. cbn.
    rewrite <- !app_assoc. repeat split.
Qed.

Lemma findTypeFieldsFrom_panics (fs : list ast.File) :
  forall s,
    allMethods (fmtFields E) fs (TypeName (data (gon s))) = None ->
    exists s', findTypeFieldsFrom E fs s = Panicked s' /\ trace s' = trace s.
Proof.
  induction fs as [|file rest IH]; intros s H; [discriminate|].
  cbn [allMethods] in H.
  destruct (tmpl.GetMethods (fmtFields E) file (TypeName (data (gon s))))
    as [m1|] eqn:Hm1.
  - destruct (findTypeFieldsFrom_step file rest s m1 Hm1)
      as [s2 [Hstep [Hd [_ [_ Ht]]]]].
    assert (Htn : TypeName (data (gon s2)) = TypeName (data (gon s)))
      by now rewrite Hd.
    destruct (allMethods (fmtFields E) rest (TypeName (data (gon s))))
      eqn:Hm2; [discriminate|].
    rewrite <- Htn in Hm2. destruct (IH s2 Hm2) as [s' [Hrun Ht']].
    exists s'. rewrite Hstep. split; [exact Hrun|congruence].
  - cbn [findTypeFieldsFrom]. unfold bind, getG, modifyG, ret, panic.
    cbn beta iota. rewrite Hm1.
    destruct (0 <? List.length (GetFields E file (TypeName (data (gon s)))))%nat;
      eexists; split; reflexivity.
Qed.

(** X6. [findTypeFields] visits the files of the package in order and
    appends to [Fields] and [Methods] what [GetFields] and [GetMethods]
    find in each, without dropping duplicates; the state it returns differs
    from the one it started in by these two lists only. It panics, before
    logging or writing anything, when [GetMethods] panics on one of the
    files. *)
Theorem findTypeFields_collects_in_file_order (s : State) (p : Package) :
  pkg (gon s) = Some p ->
  match allMethods (fmtFields E) (astFiles p) (TypeName (data (gon s))) with
  | Some ms =>
      findTypeFields E s
      = Ok tt
          {| gon :=
               {| buf := buf (gon s);
                  pkg := pkg (gon s);
                  data :=
                    {| TypeName := TypeName (data (gon s));
                       TemplateFile := TemplateFile (data (gon s));
                       OutputFile := OutputFile (data (gon s));
                       PackageName := PackageName (data (gon s));
                       Fields :=
                         (Fields (data (gon s))
                          ++ flat_map
                               (fun f => GetFields E f
                                           (TypeName (data (gon s))))
                               (astFiles p))%list;
                       Methods := (Methods (data (gon s)) ++ ms)%list;
                       Extras := Extras (data (gon s)) |} |};
             trace := trace s |}
  | None =>
      exists s', findTypeFields E s = Panicked s' /\ trace s' = trace s
  end.
Proof.
  intros Hp. unfold findTypeFields, bind, getG. rewrite Hp.
  destruct (allMethods (fmtFields E) (astFiles p) (TypeName (data (gon s))))
    as [ms|] eqn:Hall.
  - destruct (findTypeFieldsFrom_collects _ _ _ Hall)
      as [s' [Hrun [Hd [Hp' [Hb Ht]]]]].
    rewrite Hrun. f_equal.
    destruct s' as [[b' p' d'] t']. cbn in Hd, Hp', Hb, Ht.
    subst b' p' d' t'. now rewrite Hp.
  - now apply findTypeFieldsFrom_panics.
Qed.

End CollectCoverage.

(** ** More on package [gonerator]: loading a package *)

Section LoadCoverage.
Import gonerator Spec.

Variable E : Externals.

(** X7. When no name of the list ends in [.go], [parsePackage] parses
    nothing: it logs that the directory has no buildable Go files and ends
    the process with status 1, leaving the zero package behind. *)
Theorem parsePackage_without_go_files (directory : string)
    (names : list string) (s : State) :
  filter isGoSourceFile names = [] ->
  parsePackage E directory names s
  = Exited 1
      {| gon := setPkg (Some emptyPackage) (gon s);
         trace := (trace s
                   ++ [Logged ("[" ++ OutputFile (data (gon s)) ++ "] "
                               ++ directory ++ ": no buildable Go files")])%list
      |}.
Proof.
  intros Hnone. unfold parsePackage, bind, modifyG.
  rewrite (parseNames_Ok E names [] []) by (rewrite Hnone; constructor).
  unfold log_Fatalf, log_Printf, emit, os_Exit, bind, getG. cbn.
  reflexivity.
Qed.

Lemma parseNames_error (pre : list string) :
  forall acc parsedFiles n post err s,
    Forall2 (fun n f => ParseFile E n = inr f)
            (filter isGoSourceFile pre) parsedFiles ->
    strings.HasSuffix n ".go" = true ->
    ParseFile E n = inl err ->
    parseNames E (pre ++ n :: post) acc s
    = Exited 1
        {| gon := gon s;
           trace := (trace s
                     ++ [Logged ("[" ++ OutputFile (data (gon s))
                                 ++ "] parsing package: " ++ n ++ ": "
                                 ++ err)])%list |}.
Proof.
  induction pre as [|x pre IH]; intros acc parsedFiles n post err s H Hgo Herr.
  - cbn [app parseNames]. rewrite Hgo, Herr. cbn [negb].
    unfold log_Fatalf, log_Printf, emit, os_Exit, bind, getG. cbn.
    now rewrite append_nil_r.
  - cbn [app parseNames]. cbn [filter] in H. unfold isGoSourceFile at 1 in H.
    destruct (strings.HasSuffix x ".go"); cbn [negb].
    + inversion H as [|? f ? fs Hx Hrest]; subst. rewrite Hx.
      now apply (IH _ fs).
    + now apply (IH _ parsedFiles).
Qed.

(** X8. [parsePackage] stops at the first file that does not parse: it
    logs the file and the error and ends the process with status 1. The
    names after it are not looked at and the files parsed before it are
    dropped: the package left behind is the zero package. *)
Theorem parsePackage_stops_at_first_error (directory : string)
    (pre post : list string) (n err : string)
    (parsedFiles : list ast.File) (s : State) :
  Forall2 (fun n f => ParseFile E n = inr f)
          (filter isGoSourceFile pre) parsedFiles ->
  strings.HasSuffix n ".go" = true ->
  ParseFile E n = inl err ->
  parsePackage E directory (pre ++ n :: post) s
  = Exited 1
      {| gon := setPkg (Some emptyPackage) (gon s);
         trace := (trace s
                   ++ [Logged ("[" ++ OutputFile (data (gon s))
                               ++ "] parsing package: " ++ n ++ ": "
                               ++ err)])%list |}.
Proof.
  intros H Hgo Herr. unfold parsePackage, bind, modifyG.
  now rewrite (parseNames_error pre [] parsedFiles n post err _ H Hgo Herr).
Qed.

Lemma parseNames_outcome (names : list string) :
  forall acc s,
    match parseNames E names acc s with
    | Ok parsedFiles s' => s' = s /\ exists more, parsedFiles = (acc ++ more)%list
    | Exited c s' =>
        c = 1%Z /\ gon s' = gon s
        /\ exists line, trace s' = (trace s ++ [Logged line])%list
    | Panicked _ => False
    end.
Proof.
  induction names as [|n rest IH]; intros acc s.
  - cbn. split; [reflexivity|]. exists []. now rewrite app_nil_r.
  - cbn [parseNames].
    destruct (strings.HasSuffix n ".go"); cbn [negb]; [|apply IH].
    destruct (ParseFile E n) as [err|f].
    + unfold log_Fatalf, log_Printf, emit, os_Exit, bind, getG. cbn.
      repeat split. eexists. reflexivity.
    + specialize (IH (acc ++ [f])%list s).
      destruct (parseNames E rest (acc ++ [f]) s) as [parsedFiles s'|c s'|s'];
        try exact IH.
      destruct IH as [Hs [more Hmore]]. split; [exact Hs|].
      exists (f :: more). now rewrite Hmore, <- app_assoc.
Qed.

(** X9. [ParsePackageDir] never panics and has two ways to end. Either it
    returns, silently, with a package that holds at least one parsed file,
    is named after the first one and records the directory; or it ends the
    process with status 1 after exactly one log line. *)
Theorem ParsePackageDir_outcomes (directory : string) (s : State) :
  match ParsePackageDir E directory s with
  | Ok _ s' =>
      trace s' = trace s
      /\ exists p first others,
           pkg (gon s') = Some p /\ astFiles p = first :: others
           /\ name p = ast.Name first /\ dir p = directory
  | Exited c s' =>
      c = 1%Z /\ exists line, trace s' = (trace s ++ [Logged line])%list
  | Panicked _ => False
  end.
Proof.
  unfold ParsePackageDir.
  destruct (ImportDir E directory) as [err|goFiles].
  - unfold log_Fatalf, log_Printf, emit, os_Exit, bind, getG. cbn.
    split; [reflexivity|]. eexists. reflexivity.
  - unfold parsePackage, bind, modifyG.
    match goal with |- context [parseNames E ?ns ?acc ?st] =>
      pose proof (parseNames_outcome ns acc st) as Hout;
      destruct (parseNames E ns acc st) as [parsedFiles s'|c s'|s']
    end; [|exact (conj (proj1 Hout) (proj2 (proj2 Hout)))|exact Hout].
    destruct Hout as [-> [more ->]]. cbn [app].
    destruct more as [|first others].
    + unfold log_Fatalf, log_Printf, emit, os_Exit, bind, getG. cbn.
      split; [reflexivity|]. eexists. reflexivity.
    + cbn. split; [reflexivity|]. eexists _, first, others. repeat split.
Qed.

End LoadCoverage.

(** ** More on package [gonerator]: rendering and writing *)

Section BuildCoverage.
Import gonerator Spec.

Variable E : Externals.

Lemma Sprintf_plain (text : string) :
  hasByte "%" text = false -> fmt.Sprintf text [] = text.
Proof.
  induction text as [|c text IH]; [reflexivity|].
  cbn. intros H. apply orb_false_iff in H as [Hc Ht].
  now rewrite Hc, (IH Ht).
Qed.

Lemma isLetter_not_percent (c : ascii) :
  isLetter c = true -> Ascii.eqb c "%" = false.
Proof.
  destruct c as [[] [] [] [] [] [] [] []]; intros H;
    try reflexivity; discriminate H.
Qed.

Lemma Sprintf_missing_operand (a b : string) (verb : ascii) :
  hasByte "%" a = false -> isLetter verb = true -> hasByte "%" b = false ->
  fmt.Sprintf (a ++ String "%" (String verb b)) []
  = a ++ "%!" ++ String verb "(MISSING)" ++ b.
Proof.
  intros Ha Hv Hb. induction a as [|c a IH].
  - cbn. now rewrite (isLetter_not_percent _ Hv), (Sprintf_plain _ Hb).
  - cbn in Ha. apply orb_false_iff in Ha as [Hc Ha].
    cbn. rewrite Hc. now rewrite (IH Ha).
Qed.

(** X10. Rendered text without percent sign reaches the buffer as it is:
    [generate] appends it and changes nothing else. *)
Theorem generate_appends_percent_free_text
    (templateContent text : string) (s : State) :
  Generate E (data (gon s)) templateContent = Some text ->
  hasByte "%" text = false ->
  generate E templateContent s
  = Ok tt {| gon := setBuf (buf (gon s) ++ text) (gon s); trace := trace s |}.
Proof.
  intros Hgen Hfree. unfold generate, printf, bind, getG, modifyG.
  rewrite Hgen. cbn. now rewrite (Sprintf_plain _ Hfree).
Qed.

(** X11. [generate] hands the rendered text to [printf] as the format
    string, without operands: in rendered text whose one percent sign is
    followed by a letter, a verb such as [%d], the verb does not reach the
    buffer; the mark [%!verb(MISSING)] stands in its place, between the
    text before it and the text after it. *)
Theorem generate_mangles_verbs
    (templateContent a b : string) (verb : ascii) (s : State) :
  Generate E (data (gon s)) templateContent
  = Some (a ++ String "%" (String verb b)) ->
  hasByte "%" a = false ->
  isLetter verb = true ->
  hasByte "%" b = false ->
  generate E templateContent s
  = Ok tt {| gon := setBuf (buf (gon s)
                            ++ a ++ "%!" ++ String verb "(MISSING)" ++ b)
                           (gon s);
             trace := trace s |}.
Proof.
  intros Hgen Ha Hv Hb. unfold generate, printf, bind, getG, modifyG.
  rewrite Hgen. cbn [gon buf].
  now rewrite (Sprintf_missing_operand a b verb Ha Hv Hb).
Qed.

(** The ways [writeFile] can end. *)
Lemma writeFile_cases (dir filename typeName : string) (s : State) :
  match writeFile E dir filename typeName s with
  | Ok err s' =>
      gon s' = gon s
      /\ exists logs content,
           trace s'
           = (trace s ++ logs
              ++ [MadeDir (filepath.Dir (outputName E dir filename));
                  Wrote (outputName E dir filename) content])%list
           /\ match err with
              | None =>
                  logs = []
                  /\ content = (if isGo filename
                                then match Source E (buf (gon s)) with
                                     | inr src => src
                                     | inl _ => buf (gon s)
                                     end
                                else buf (gon s))
              | Some e =>
                  logs = formatWarnings (OutputFile (data (gon s))) e
                  /\ content = buf (gon s)
                  /\ isGo filename = true
                  /\ Source E (buf (gon s)) = inl e
              end
  | Exited c s' =>
      c = 1%Z /\ gon s' = gon s
      /\ exists evs, trace s' = (trace s ++ evs)%list
                     /\ forallb notWrote evs = true
  | Panicked _ => False
  end.
Proof.
  unfold writeFile, format, toBytes, log_Fatalf, log_Printf, emit, os_Exit,
    bind, getG, ret.
  destruct (isGo filename); cbn;
    [destruct (Source E (buf (gon s))) as [e|src] eqn:Hsrc; cbn|];
    (destruct (MkdirAll E _); cbn;
     [|destruct (WriteFile E _ _); cbn]);
    try (split; [reflexivity|split; [reflexivity|]];
         eexists; split; [rewrite <- ?app_assoc; reflexivity|reflexivity]);
    (split; [reflexivity|]).
  - exists (formatWarnings (OutputFile (data (gon s))) e), (buf (gon s)).
    split; [unfold formatWarnings; now rewrite <- !app_assoc|].
    repeat split.
  - exists [], src. split; [now rewrite <- !app_assoc|]. repeat split.
  - exists [], (buf (gon s)). split; [now rewrite <- !app_assoc|].
    repeat split.
Qed.


Lemma buildHeader_frame (s : State) :
  exists s',
    buildHeader s = Ok tt s'
    /\ data (gon s') = data (gon s) /\ pkg (gon s') = pkg (gon s)
    /\ trace s' = trace s
    /\ buf (gon s')
       = buf (gon s) ++ (if isGo (OutputFile (data (gon s)))
                         then header (data (gon s)) else "").
Proof.
  destruct (isGo (OutputFile (data (gon s)))) eqn:Hgo.
  - rewrite (buildHeader_go s Hgo). eexists. repeat split.
  - rewrite (buildHeader_other s Hgo). exists s.
    now rewrite append_nil_r.
Qed.

(** What [buildTemplateData] does, by the package and the methods found. *)
Lemma buildTemplateData_cases (extras : string) (s : State) :
  match pkg (gon s) with
  | None =>
      exists s', buildTemplateData E extras s = Panicked s'
                 /\ trace s' = trace s
  | Some p =>
      match allMethods (fmtFields E) (astFiles p)
                       (TypeName (data (gon s))) with
      | None =>
          exists s', buildTemplateData E extras s = Panicked s'
                     /\ trace s' = trace s
      | Some ms =>
          exists s',
            buildTemplateData E extras s = Ok tt s'
            /\ data (gon s')
               = {| TypeName := TypeName (data (gon s));
                    TemplateFile := TemplateFile (data (gon s));
                    OutputFile := OutputFile (data (gon s));
                    PackageName := name p;
                    Fields := (Fields (data (gon s))
                               ++ flat_map
                                    (fun f => GetFields E f
                                                (TypeName (data (gon s))))
                                    (astFiles p))%list;
                    Methods := (Methods (data (gon s)) ++ ms)%list;
                    Extras := strings.SplitByte "," extras |}
            /\ buf (gon s') = buf (gon s) /\ pkg (gon s') = pkg (gon s)
            /\ trace s' = trace s
      end
  end.
Proof.
  destruct (pkg (gon s)) as [p|] eqn:Hp.
  - destruct (allMethods (fmtFields E) (astFiles p) (TypeName (data (gon s))))
      as [ms|] eqn:Hall.
    + destruct (findTypeFieldsFrom_collects E _ _ _ Hall)
        as [s1 [Hrun [Hd [Hp1 [Hb Ht]]]]].
      assert (Hf : findTypeFields E s = Ok tt s1)
        by (unfold findTypeFields, bind, getG; now rewrite Hp).
      destruct (buildTemplateData_Ok E extras s s1 Hf) as [p' [Hp' Hbtd]].
      rewrite Hp in Hp'. inversion Hp'; subst p'.
      eexists. split; [exact Hbtd|]. cbn. rewrite Hd. cbn.
      repeat split; congruence.
    + destruct (findTypeFieldsFrom_panics E _ _ Hall) as [s1 [Hrun Ht]].
      exists s1. split; [|exact Ht].
      unfold buildTemplateData, findTypeFields, bind, getG.
      now rewrite Hp, Hrun.
  - exists s. split; [|reflexivity].
    unfold buildTemplateData, findTypeFields, bind, getG, panic.
    now rewrite Hp.
Qed.

(** The steps of [Build] before [writeFile]: they log and write nothing,
    and when they return, the state is determined by the package, the
    template and the renderer. *)
Lemma renderSteps_cases
    (dir typeName templateFile outputFile extras : string) (s : State) :
  match renderSteps E dir typeName templateFile outputFile extras s with
  | Ok _ s1 =>
      trace s1 = trace s /\ pkg (gon s1) = pkg (gon s)
      /\ exists p templateContent text ms,
           pkg (gon s) = Some p
           /\ ReadFile E (templatePath dir templateFile) = inr templateContent
           /\ allMethods (fmtFields E) (astFiles p) typeName = Some ms
           /\ data (gon s1)
              = {| TypeName := typeName; TemplateFile := templateFile;
                   OutputFile := outputFile; PackageName := name p;
                   Fields := flat_map (fun f => GetFields E f typeName)
                                      (astFiles p);
                   Methods := ms;
                   Extras := strings.SplitByte "," extras |}
           /\ Generate E (data (gon s1)) templateContent = Some text
           /\ buf (gon s1)
              = buf (gon s)
                ++ (if isGo outputFile
                    then header (freshData typeName templateFile outputFile)
                    else "")
                ++ fmt.Sprintf text []
  | Exited _ _ => False
  | Panicked s1 => trace s1 = trace s
  end.
Proof.
  unfold renderSteps. unfold bind at 1, modifyG at 1.
  set (s0 := {| gon := setData _ (gon s); trace := trace s |}).
  destruct (buildHeader_frame s0) as [s1 [Hh [Hd1 [Hp1 [Ht1 Hb1]]]]].
  unfold bind at 1. rewrite Hh. clear Hh. subst s0.
  cbn in Hd1, Hp1, Ht1, Hb1. unfold freshData.
  destruct (ReadFile E (templatePath dir templateFile)) as [err|tc];
    [exact Ht1|].
  pose proof (buildTemplateData_cases extras s1) as Hbtd.
  unfold bind. rewrite Hp1, Hd1 in Hbtd. cbn in Hbtd.
  destruct (pkg (gon s)) as [p|] eqn:Hp;
    [destruct (allMethods (fmtFields E) (astFiles p) typeName)
       as [ms|] eqn:Hall|].
  - destruct Hbtd as [s2 [-> [Hd2 [Hb2 [Hp2 Ht2]]]]].
    unfold generate, printf, bind, getG, modifyG, panic.
    destruct (Generate E (data (gon s2)) tc) as [text|] eqn:Hgen.
    + cbn. split; [congruence|]. split; [congruence|].
      exists p, tc, text, ms. rewrite Hd2. rewrite Hd2 in Hgen.
      repeat split; try assumption.
      rewrite Hb2, Hb1. cbn. now rewrite append_assoc.
    + cbn. congruence.
  - destruct Hbtd as [s2 [-> Ht2]]. cbn. congruence.
  - destruct Hbtd as [s2 [-> Ht2]]. cbn. congruence.
Qed.


(** X14. [Build] on a [Gonerator] that has parsed no package always
    panics, whatever the arguments, and writes nothing. *)
Theorem Build_without_package_panics
    (dir typeName templateFile outputFile extras : string) (s : State) :
  pkg (gon s) = None ->
  exists s',
    Build E dir typeName templateFile outputFile extras s = Panicked s'
    /\ trace s' = trace s.
Proof.
  intros Hp. rewrite Build_split. unfold bind at 1.
  pose proof (renderSteps_cases dir typeName templateFile outputFile extras s)
    as Hr.
  destruct (renderSteps E dir typeName templateFile outputFile extras s)
    as [[] s1|c s1|s1]; [|contradiction|now exists s1].
  destruct Hr as [_ [_ [p [_ [_ [_ [Hsome _]]]]]]]. congruence.
Qed.

(** X15. The template data of a [Build] that returns: the three arguments,
    the package name, the fields and methods found in the files of the
    package in file order, and the tokens of the extras. Nothing of the
    data of an earlier [Build] is left in it. *)
Theorem Build_template_data
    (dir typeName templateFile outputFile extras : string) (s s' : State)
    (p : Package) :
  pkg (gon s) = Some p ->
  Build E dir typeName templateFile outputFile extras s = Ok tt s' ->
  exists ms,
    allMethods (fmtFields E) (astFiles p) typeName = Some ms
    /\ data (gon s')
       = {| TypeName := typeName; TemplateFile := templateFile;
            OutputFile := outputFile; PackageName := name p;
            Fields := flat_map (fun f => GetFields E f typeName) (astFiles p);
            Methods := ms;
            Extras := strings.SplitByte "," extras |}.
Proof.
  intros Hp HB. rewrite Build_split in HB.
  apply bind_Ok in HB as [[] [s1 [Hrender HB]]].
  apply bind_Ok in HB as [err [s2 [Hwrite HB]]].
  destruct err; [discriminate|]. inversion HB; subst s'; clear HB.
  pose proof (renderSteps_cases dir typeName templateFile outputFile extras s)
    as Hr. rewrite Hrender in Hr.
  destruct Hr as [_ [_ [p' [tc [text [ms [Hp' [_ [Hall [Hd _]]]]]]]]]].
  rewrite Hp in Hp'. inversion Hp'; subst p'.
  pose proof (writeFile_cases dir outputFile typeName s1) as Hw.
  rewrite Hwrite in Hw. destruct Hw as [Hg _].
  exists ms. split; [exact Hall|]. now rewrite Hg.
Qed.

(** X16. [Build] never empties the buffer of the [Gonerator]. After a
    [Build] that returns, the buffer holds what it held before, then the
    header if the destination passes [isGo], then what [printf] printed of
    the rendered template, which is the rendered template itself when it
    holds no percent sign; for a destination that does not pass [isGo]
    that whole buffer is what the file receives. *)
Theorem Build_appends_to_buffer
    (dir typeName templateFile outputFile extras : string) (s s' : State) :
  Build E dir typeName templateFile outputFile extras s = Ok tt s' ->
  exists templateContent text printed,
    ReadFile E (templatePath dir templateFile) = inr templateContent
    /\ Generate E (data (gon s')) templateContent = Some text
    /\ buf (gon s')
       = buf (gon s)
         ++ (if isGo outputFile
             then header (freshData typeName templateFile outputFile)
             else "")
         ++ printed
    /\ (hasByte "%" text = false -> printed = text)
    /\ (isGo outputFile = false ->
        trace s'
        = (trace s
           ++ [MadeDir (filepath.Dir (outputName E dir outputFile));
               Wrote (outputName E dir outputFile) (buf (gon s'))])%list).
Proof.
  intros HB. rewrite Build_split in HB.
  apply bind_Ok in HB as [[] [s1 [Hrender HB]]].
  apply bind_Ok in HB as [err [s2 [Hwrite HB]]].
  destruct err; [discriminate|]. inversion HB; subst s'; clear HB.
  pose proof (renderSteps_cases dir typeName templateFile outputFile extras s)
    as Hr. rewrite Hrender in Hr.
  destruct Hr as [Ht1 [_ [p [tc [text [ms [_ [Hread [_ [_ [Hgen Hbuf]]]]]]]]]]].
  pose proof (writeFile_cases dir outputFile typeName s1) as Hw.
  rewrite Hwrite in Hw.
  destruct Hw as [Hg [logs [content [Ht2 [-> Hcontent]]]]].
  exists tc, text, (fmt.Sprintf text []). rewrite Hg.
  repeat split; try assumption.
  - now apply Sprintf_plain.
  - intros Hgo. rewrite Hgo in Hcontent. now rewrite Ht2, Ht1, Hcontent.
Qed.

End BuildCoverage.

(** ** More on the paths the program builds *)

Section PathCoverage.
Import gonerator Spec.

Lemma forallb_filter {A} (P Q : A -> bool) (l : list A) :
  forallb P l = true -> forallb P (filter Q l) = true.
Proof.
  induction l as [|x l IH]; [reflexivity|].
  cbn. intros H. apply andb_true_iff in H as [Hx Hl].
  destruct (Q x); cbn; [rewrite Hx|]; now apply IH.
Qed.

Lemma isBeneath_Join (d f : string) :
  String.eqb d "" = false -> noDotDot f = true ->
  isBeneath (filepath.Join d f) d = true.
Proof.
  intros Hd Hf. apply String.eqb_neq in Hd.
  destruct (cleanElems_Join d f Hd Hf) as [H1 H2].
  unfold isBeneath. rewrite H1, H2, Bool.eqb_reflx, stripPrefix_app.
  now apply forallb_filter.
Qed.

Lemma isBeneath_dot (n : string) :
  strings.HasPrefix n "/" = false -> noDotDot n = true ->
  isBeneath n "." = true.
Proof.
  intros Hrel Hn. unfold isBeneath. rewrite Hrel. cbn.
  unfold filepath.cleanElems. rewrite Hrel, (fold_noDotDot false _ _ Hn).
  rewrite app_nil_r, rev_involutive. now apply forallb_filter.
Qed.

(** X17. [prefixDirectory] returns as many names as it is given: for the
    directory [.] the names as they are, for any other directory each name
    joined to it. For a directory that is not empty and relative names
    without [..] element, as the file names of a package are, every name it
    returns lies beneath the directory. *)
Theorem prefixDirectory_beneath (directory : string) (names : list string) :
  List.length (prefixDirectory directory names) = List.length names
  /\ (directory = "." -> prefixDirectory directory names = names)
  /\ (directory <> "." ->
      prefixDirectory directory names = map (filepath.Join directory) names)
  /\ (String.eqb directory "" = false ->
      Forall (fun n => strings.HasPrefix n "/" = false /\ noDotDot n = true)
             names ->
      Forall (fun n => isBeneath n directory = true)
             (prefixDirectory directory names)).
Proof.
  unfold prefixDirectory.
  destruct (String.eqb_spec directory ".") as [->|Hdot].
  - split; [reflexivity|]. split; [reflexivity|]. split; [congruence|].
    intros _ Hnames. eapply Forall_impl; [|exact Hnames].
    intros n [Hrel Hn]. now apply isBeneath_dot.
  - split; [apply length_map|]. split; [contradiction|].
    split; [reflexivity|].
    intros Hd Hnames.
    apply Forall_map. eapply Forall_impl; [|exact Hnames].
    intros n [_ Hn]. now apply isBeneath_Join.
Qed.

(** X18. When the directory handed to [Build] ends in a separator, the
    concatenation [Build] reads a relative template from names the same
    file as the path-joining rule: cleaned, it is the joined path. *)
Theorem templatePath_after_separator (d templateFile : string) :
  strings.HasPrefix templateFile "/" = false ->
  filepath.Clean (templatePath (d ++ "/") templateFile)
  = filepath.Join (d ++ "/") templateFile.
Proof.
  intros Hrel. unfold templatePath. rewrite Hrel. cbn [negb].
  unfold filepath.Join.
  assert (Hne : d ++ "/" <> "") by (destruct d; discriminate).
  destruct (String.eqb_spec (d ++ "/") "") as [|_]; [contradiction|].
  cbn [negb]. unfold filepath.Clean.
  destruct (String.eqb_spec ((d ++ "/") ++ templateFile) "") as [He|_];
    [destruct d; discriminate|].
  destruct (String.eqb_spec ((d ++ "/") ++ "/" ++ templateFile) "") as [He|_];
    [destruct d; discriminate|].
  rewrite !(HasPrefix_app (d ++ "/") _ Hne). f_equal.
  unfold filepath.cleanElems. rewrite !(HasPrefix_app (d ++ "/") _ Hne).
  f_equal. rewrite !append_assoc. cbn [append].
  rewrite !SplitByte_app. cbn [strings.SplitByte].
  rewrite Ascii.eqb_refl, !fold_left_app. reflexivity.
Qed.

End PathCoverage.

(** ** The header of a Go destination *)

(** X19. A destination whose name ends in [.go] always gets the header:
    [buildHeader] appends it to the buffer and changes nothing else. *)
Theorem go_destination_gets_header (s : gonerator.State) :
  Spec.isGoSourceFile
    (gonerator.OutputFile (gonerator.data (gonerator.gon s))) = true ->
  gonerator.buildHeader s
  = gonerator.Ok tt
      {| gonerator.gon :=
           gonerator.setBuf
             (gonerator.buf (gonerator.gon s)
              ++ Spec.header (gonerator.data (gonerator.gon s)))
             (gonerator.gon s);
         gonerator.trace := gonerator.trace s |}.
Proof.
  intros H. apply buildHeader_go. now apply isGo_of_go_source_file.
Qed.

(** ** The added properties at work in the sample world *)

Lemma GetMethods_describes_declared_methods_witness :
  exists methods,
    tmpl.GetMethods Spec.noFields Spec.readerFile "Reader" = Some methods
    /\ Forall2 (Spec.describes Spec.noFields)
               (Spec.declaredMethods Spec.readerFile "Reader") methods.
Proof.
  apply (GetMethods_describes_declared_methods Spec.noFields
           Spec.readerFile "Reader"). reflexivity.
Defined.

Lemma GetMethods_panics_iff_witness :
  forallb Spec.isMethodWithResults
          (Spec.declaredMethods Spec.closerFile "Closer") = false.
Proof.
  apply (GetMethods_panics_iff Spec.noFields Spec.closerFile "Closer").
  reflexivity.
Defined.

Lemma GetMethods_without_interface_witness :
  tmpl.GetMethods Spec.noFields Spec.readerFile "Writer" = Some [].
Proof.
  apply (GetMethods_without_interface Spec.noFields Spec.readerFile "Writer").
  reflexivity.
Defined.

Lemma getTypeString_injective_up_to_lengths_witness :
  map Spec.eraseLen [Spec.Slice; Spec.Pointer]
  = map Spec.eraseLen [Spec.Array (ast.BasicLit "4"); Spec.Pointer]
  /\ "int" = "int".
Proof.
  apply (getTypeString_injective_up_to_lengths Spec.noFields
           [Spec.Slice; Spec.Pointer]
           [Spec.Array (ast.BasicLit "4"); Spec.Pointer] "int" "int");
    reflexivity.
Defined.

Lemma getTypeString_plain_independent_witness :
  tmpl.getTypeString Spec.noFields
    (ast.ArrayType None (ast.StarExpr (ast.SelectorExpr (ast.Ident "io")
                                                        "Reader")))
  = tmpl.getTypeString (fun _ => "dump")
      (ast.ArrayType None (ast.StarExpr (ast.SelectorExpr (ast.Ident "io")
                                                          "Reader"))).
Proof.
  apply (getTypeString_plain_independent Spec.noFields (fun _ => "dump")).
  reflexivity.
Defined.

Lemma findTypeFields_collects_in_file_order_witness :
  exists s',
    gonerator.findTypeFields (Spec.world true) Spec.twoReaders
    = gonerator.Ok tt s'
    /\ gonerator.pkg (gonerator.gon s')
       = gonerator.pkg (gonerator.gon Spec.twoReaders)
    /\ map tmpl.Name (gonerator.Methods (gonerator.data (gonerator.gon s')))
       = ["Read"; "Read"].
Proof.
  pose proof (findTypeFields_collects_in_file_order (Spec.world true)
                Spec.twoReaders _ eq_refl) as H.
  cbn in H. eexists. split; [exact H|]. split; reflexivity.
Defined.

Lemma parsePackage_without_go_files_witness :
  exists s',
    gonerator.parsePackage (Spec.world true) "/docs" ["README.md"] Spec.start
    = gonerator.Exited 1 s'.
Proof.
  eexists.
  apply (parsePackage_without_go_files (Spec.world true) "/docs"
           ["README.md"] Spec.start). reflexivity.
Defined.

Lemma parsePackage_stops_at_first_error_witness :
  exists s',
    gonerator.parsePackage (Spec.world true) "/src"
      (["/src/a.go"] ++ "/src/missing.go" :: ["/src/b.go"]) Spec.start
    = gonerator.Exited 1 s'.
Proof.
  eexists.
  apply (parsePackage_stops_at_first_error (Spec.world true) "/src"
           ["/src/a.go"] ["/src/b.go"] "/src/missing.go"
           "no such file or directory" [Spec.alphaFile] Spec.start).
  - cbn. repeat constructor.
  - reflexivity.
  - reflexivity.
Defined.

Lemma generate_appends_percent_free_text_witness :
  gonerator.generate (Spec.world true) "package main" Spec.parsed
  = gonerator.Ok tt
      {| gonerator.gon :=
           gonerator.setBuf "package main" (gonerator.gon Spec.parsed);
         gonerator.trace := [] |}.
Proof.
  apply (generate_appends_percent_free_text (Spec.world true)
           "package main" "package main" Spec.parsed); reflexivity.
Defined.

Lemma generate_mangles_verbs_witness :
  gonerator.generate (Spec.world true) "n := %d + 1" Spec.parsed
  = gonerator.Ok tt
      {| gonerator.gon :=
           gonerator.setBuf "n := %!d(MISSING) + 1"
                            (gonerator.gon Spec.parsed);
         gonerator.trace := [] |}.
Proof.
  apply (generate_mangles_verbs (Spec.world true) "n := %d + 1" "n := "
           " + 1" "d" Spec.parsed); reflexivity.
Defined.

Lemma Build_without_package_panics_witness :
  exists s',
    gonerator.Build (Spec.world true) "/src/" "T" "t.tmpl" "out.go" ""
      Spec.start
    = gonerator.Panicked s'
    /\ gonerator.trace s' = [].
Proof.
  apply (Build_without_package_panics (Spec.world true)
           "/src/" "T" "t.tmpl" "out.go" "" Spec.start). reflexivity.
Defined.

Lemma Build_template_data_witness :
  exists ms,
    Spec.allMethods Spec.noFields [Spec.alphaFile; Spec.betaFile] "T"
    = Some ms
    /\ gonerator.data (gonerator.gon Spec.built)
       = {| gonerator.TypeName := "T"; gonerator.TemplateFile := "t.tmpl";
            gonerator.OutputFile := "out.go";
            gonerator.PackageName := "alpha";
            gonerator.Fields := []; gonerator.Methods := ms;
            gonerator.Extras := ["x"; "y"] |}.
Proof.
  apply (Build_template_data (Spec.world true) "/src/" "T" "t.tmpl" "out.go"
           "x,y" Spec.parsed Spec.built
           {| gonerator.name := "alpha";
              gonerator.files := [Spec.alphaFile; Spec.betaFile];
              gonerator.dir := "/src";
              gonerator.astFiles := [Spec.alphaFile; Spec.betaFile] |});
    vm_compute; reflexivity.
Defined.

Lemma Build_appends_to_buffer_witness :
  exists templateContent text printed,
    gonerator.ReadFile (Spec.world true) "/src/t.tmpl" = inr templateContent
    /\ gonerator.Generate (Spec.world true)
         (gonerator.data (gonerator.gon Spec.built)) templateContent
       = Some text
    /\ gonerator.buf (gonerator.gon Spec.built)
       = Spec.header (Spec.freshData "T" "t.tmpl" "out.go") ++ printed.
Proof.
  destruct (Build_appends_to_buffer (Spec.world true) "/src/" "T" "t.tmpl"
              "out.go" "x,y" Spec.parsed Spec.built)
    as [tc [text [printed [Hread [Hgen [Hbuf _]]]]]];
    [vm_compute; reflexivity|].
  exists tc, text, printed. repeat split; assumption.
Defined.

Lemma prefixDirectory_beneath_witness :
  Forall (fun n => Spec.isBeneath n "/src" = true)
         (gonerator.prefixDirectory "/src" ["a.go"; "b.go"]).
Proof.
  destruct (prefixDirectory_beneath "/src" ["a.go"; "b.go"])
    as [_ [_ [_ Hbeneath]]].
  apply Hbeneath.
  - reflexivity.
  - repeat constructor.
Defined.

Lemma templatePath_after_separator_witness :
  filepath.Clean (gonerator.templatePath "/src/" "t.tmpl") = "/src/t.tmpl".
Proof.
  apply (templatePath_after_separator "/src" "t.tmpl"). reflexivity.
Defined.

Lemma go_destination_gets_header_witness :
  exists s',
    gonerator.buildHeader Spec.built = gonerator.Ok tt s'.
Proof.
  eexists. apply (go_destination_gets_header Spec.built). reflexivity.
Defined.
